(** * tsParticles: option loading and the container life cycle

    A shallow embedding of two classes of the engine,

    - [PolygonMask] (Plugins/PolygonMask/Options/Classes/PolygonMask.ts),
      the option object of the polygon mask plug-in and its [load];
    - [Container] (Core/Container.ts), the root object that owns the
      life-cycle flags, the frame request handle and the subordinates.

    JavaScript values are modelled as follows.  A property that may be
    [undefined] (an optional field, or a field removed with [delete]) is
    an [option].  A [number] is an IEEE 754 double: a [spec_float] of
    the Standard Library, with the operations of [SpecFloat] at
    precision 53, so that arithmetic rounds to the nearest double and
    [NaN], the infinities and the signed zeros are values.  The length
    of a collection is a natural number, converted where it enters the
    arithmetic.  Mutation of [this] is explicit state passing. *)

From Stdlib Require Import ZArith PArith List String Ascii Bool Lia.
From Stdlib Require Import SpecFloat Permutation.
Import ListNotations.

Set Implicit Arguments.

Definition number := spec_float.

(* ================================================================= *)
(** ** Numbers *)

Module Number.

Definition prec : Z := 53.
Definition emax : Z := 1024.

(** The double nearest to an integer. *)
Definition ofZ (z : Z) : number := binary_normalize prec emax z 0 false.
Definition ofNat (n : nat) : number := ofZ (Z.of_nat n).

(** [a * b], [a / b], [a - b], [Math.abs(a)], [a < b] and [a === b]. *)
Definition mul (a b : number) : number := SFmul prec emax a b.
Definition div (a b : number) : number := SFdiv prec emax a b.
Definition sub (a b : number) : number := SFsub prec emax a b.
Definition abs (a : number) : number := SFabs a.
Definition lt (a b : number) : bool := SFltb a b.


(** The integer value of [Math.round(x)] for a finite [x]: the nearest
    integer, halves upwards. *)
Definition round (x : number) : option Z :=
  match x with
  | S754_zero _ => Some 0%Z
  | S754_finite s m e =>
      let v := cond_Zopp s (Zpos m) in
      Some (match e with
            | Zneg k => (2 * v + 2 ^ Zpos k) / 2 ^ (Zpos k + 1)
            | _ => v * 2 ^ e
            end)%Z
  | _ => None
  end.

(** The least integer not below a finite [x], and the greatest one not
    above it. *)
Definition ceil (x : number) : option Z :=
  match x with
  | S754_zero _ => Some 0%Z
  | S754_finite s m e =>
      let v := cond_Zopp s (Zpos m) in
      Some (match e with
            | Zneg k => - ((- v) / 2 ^ Zpos k)
            | _ => v * 2 ^ e
            end)%Z
  | _ => None
  end.

Definition floor (x : number) : option Z :=
  match x with
  | S754_zero _ => Some 0%Z
  | S754_finite s m e =>
      let v := cond_Zopp s (Zpos m) in
      Some (match e with
            | Zneg k => v / 2 ^ Zpos k
            | _ => v * 2 ^ e
            end)%Z
  | _ => None
  end.

(** An integer that every double up to it represents exactly
    ([Number.MAX_SAFE_INTEGER] is [2 ^ 53 - 1]). *)
Definition safe (n : nat) : Prop := (Z.of_nat n < 2 ^ 53)%Z.

(** [p] shifted left by [t] binary places, the number of binary digits
    of [p], and the double of a positive integer [p] of at most 53
    digits: the mantissa is [p] shifted to 53 digits. *)
Definition shl (p : positive) (t : nat) : positive := Nat.iter t xO p.

Definition digits (p : positive) : nat := Pos.to_nat (digits2_pos p).

Definition normal (sx : bool) (p : positive) : number :=
  S754_finite sx (shl p (53 - digits p)) (Z.of_nat (digits p) - 53).

End Number.

(* ================================================================= *)
(** ** PolygonMask options *)

Module PolygonMask.

(** *** Inline (sub-option of the mask) *)

(** [RecursivePartial<IPolygonMaskInline>]: the input of [Inline.load]. *)
Record IInline (Arrangement : Type) := {
  i_arrangement : option Arrangement
}.

Record Inline (Arrangement : Type) := {
  arrangement : Arrangement
}.

(** Modelled from the spec: [Inline.load] of Options/Classes/Inline.ts,
    which is not part of the source tree.  Section 4.1: a load merges a
    possibly undefined partial object field by field, and a scalar field
    is overwritten only when the incoming value is not undefined. *)
Definition Inline_load {Arrangement : Type}
    (this : Inline Arrangement) (data : option (IInline Arrangement))
  : Inline Arrangement :=
  match data with
  | None => this
  | Some d =>
      match i_arrangement d with
      | Some a => {| arrangement := a |}
      | None => this
      end
  end.

Section Options.

(** The enums of ../../Enums and the other sub-option classes are not
    part of the source tree.  [load] only compares a mask type with
    [Type.none] and hands the sub-objects to their own loaders, so they
    are parameters here. *)
Variable MaskType : Type.
Variable MaskType_eq_dec : forall a b : MaskType, {a = b} + {a <> b}.
Variable Type_none : MaskType.
Variable Arrangement : Type.

Variables Draw IDraw Move IMove LocalSvg ILocalSvg : Type.
Variables ICoordinates ICoordinatesPartial : Type.
Variable Draw_load : Draw -> option IDraw -> Draw.
Variable Move_load : Move -> option IMove -> Move.
Variable LocalSvg_new : LocalSvg.
Variable LocalSvg_load : LocalSvg -> option ILocalSvg -> LocalSvg.
(** [deepExtend({}, source)] *)
Variable deepExtend_empty : ICoordinatesPartial -> ICoordinates.

(** [this.type !== Type.none] *)
Definition is_not_none (t : MaskType) : bool :=
  if MaskType_eq_dec t Type_none then false else true.

(** [RecursivePartial<IPolygonMask>]: every field may be undefined.
    [d_data] is [string | LocalSvg]. *)
Record IPolygonMask := {
  d_draw : option IDraw;
  d_enable : option bool;
  d_inline : option (IInline Arrangement);
  d_inlineArrangement : option Arrangement;
  d_move : option IMove;
  d_position : option ICoordinatesPartial;
  d_scale : option number;
  d_type : option MaskType;
  d_url : option string;
  d_data : option (string + ILocalSvg)
}.

Record PolygonMask := {
  draw : Draw;
  enable : bool;
  inline : Inline Arrangement;
  move : Move;
  position : option ICoordinates;
  scale : number;
  type : MaskType;
  url : option string;
  data : option (string + LocalSvg)
}.

(** The deprecated accessor pair [inlineArrangement]. *)
Definition inlineArrangement (this : PolygonMask) : Arrangement :=
  arrangement (inline this).

(** [constructor()], given the fresh sub-options and the default
    arrangement the absent [Inline] constructor installs. *)
Definition new (draw0 : Draw) (inline0 : Inline Arrangement) (move0 : Move)
  : PolygonMask :=
  {| draw := draw0; enable := false; inline := inline0; move := move0;
     position := None; scale := Number.ofZ 1; type := Type_none; url := None;
     data := None |}.

(** Field assignments [this.f = v]. *)
Definition set_draw v (p : PolygonMask) :=
  {| draw := v; enable := enable p; inline := inline p; move := move p;
     position := position p; scale := scale p; type := type p;
     url := url p; data := data p |}.
Definition set_enable v (p : PolygonMask) :=
  {| draw := draw p; enable := v; inline := inline p; move := move p;
     position := position p; scale := scale p; type := type p;
     url := url p; data := data p |}.
Definition set_inline v (p : PolygonMask) :=
  {| draw := draw p; enable := enable p; inline := v; move := move p;
     position := position p; scale := scale p; type := type p;
     url := url p; data := data p |}.
Definition set_move v (p : PolygonMask) :=
  {| draw := draw p; enable := enable p; inline := inline p; move := v;
     position := position p; scale := scale p; type := type p;
     url := url p; data := data p |}.
Definition set_position v (p : PolygonMask) :=
  {| draw := draw p; enable := enable p; inline := inline p; move := move p;
     position := v; scale := scale p; type := type p;
     url := url p; data := data p |}.
Definition set_scale v (p : PolygonMask) :=
  {| draw := draw p; enable := enable p; inline := inline p; move := move p;
     position := position p; scale := v; type := type p;
     url := url p; data := data p |}.
Definition set_type v (p : PolygonMask) :=
  {| draw := draw p; enable := enable p; inline := inline p; move := move p;
     position := position p; scale := scale p; type := v;
     url := url p; data := data p |}.
Definition set_url v (p : PolygonMask) :=
  {| draw := draw p; enable := enable p; inline := inline p; move := move p;
     position := position p; scale := scale p; type := type p;
     url := v; data := data p |}.
Definition set_data v (p : PolygonMask) :=
  {| draw := draw p; enable := enable p; inline := inline p; move := move p;
     position := position p; scale := scale p; type := type p;
     url := url p; data := v |}.

(** [if (v !== undefined) { this.f = v; }] *)
Definition assign_defined {A : Type}
    (set : A -> PolygonMask -> PolygonMask) (v : option A)
    (p : PolygonMask) : PolygonMask :=
  match v with
  | Some a => set a p
  | None => p
  end.

(** [load(data?)], statement by statement. *)
Definition load (this : PolygonMask) (data : option IPolygonMask)
  : PolygonMask :=
  match data with
  | None => this
  | Some data =>
      (* this.draw.load(data.draw); *)
      let this := set_draw (Draw_load (draw this) (d_draw data)) this in
      (* const inline = data.inline ?? { arrangement: data.inlineArrangement }; *)
      let inline_in :=
        match d_inline data with
        | Some i => i
        | None => {| i_arrangement := d_inlineArrangement data |}
        end in
      (* if (inline !== undefined) { this.inline.load(inline); } *)
      let this := set_inline (Inline_load (inline this) (Some inline_in)) this in
      (* this.move.load(data.move); *)
      let this := set_move (Move_load (move this) (d_move data)) this in
      let this := assign_defined set_scale (d_scale data) this in
      let this := assign_defined set_type (d_type data) this in
      (* if (data.enable !== undefined) ... else this.enable = this.type !== Type.none *)
      let this :=
        match d_enable data with
        | Some e => set_enable e this
        | None => set_enable (is_not_none (type this)) this
        end in
      let this := assign_defined (fun u => set_url (Some u)) (d_url data) this in
      (* string, or a fresh LocalSvg loaded from the object *)
      let this :=
        match d_data data with
        | Some (inl s) => set_data (Some (inl s)) this
        | Some (inr o) =>
            set_data (Some (inr (LocalSvg_load LocalSvg_new (Some o)))) this
        | None => this
        end in
      match d_position data with
      | Some pos => set_position (Some (deepExtend_empty pos)) this
      | None => this
      end
  end.

(** An input in which every field is undefined: the object [{}]. *)
Definition empty_data : IPolygonMask :=
  {| d_draw := None; d_enable := None; d_inline := None;
     d_inlineArrangement := None; d_move := None; d_position := None;
     d_scale := None; d_type := None; d_url := None; d_data := None |}.

End Options.

End PolygonMask.

(* ================================================================= *)
(** ** Container *)

Module Core.

(** *** Data *)

(** A handle returned by [requestAnimationFrame]. *)
Definition handle := nat.

(** [SingleOrMultiple<T>]: a value or an array of values. *)
Inductive SingleOrMultiple (A : Type) : Type :=
| Single (a : A)
| Multiple (l : list A).

(** The part of [Options] the container reads:
    [options.particles.number.value], [options.particles.number.density]
    and [options.particles.shape.type]. *)
Record Density := { density_enable : bool; density_area : number }.
Record ParticlesNumber := { number_value : number; number_density : Density }.
Record Shape := { shape_type : SingleOrMultiple string }.
Record ParticlesOptions := {
  particles_number : ParticlesNumber;
  particles_shape : Shape
}.
Record Options := { options_particles : ParticlesOptions }.

Record Retina := { isRetina : bool; pixelRatio : number }.

Record CanvasElement := { width : number; height : number }.
Record Canvas := { element : option CanvasElement }.

(** The particle collection, as far as the container looks into it:
    [count] is the length of the particle array. *)
Record Particles := { count : nat; lineLinkedColor : option string }.

(** [IPlugin] and [IShapeDrawer] are capability objects: every hook is
    optional and its presence is what the container tests.  The hook
    bodies live outside the engine core, so a field records whether the
    hook is defined and a call is recorded in the world's call log. *)
Record IPlugin := {
  plugin_name : string;
  plugin_init : bool;
  plugin_start : bool;
  plugin_startAsync : bool;
  plugin_stop : bool;
  plugin_pause : bool;
  plugin_play : bool
}.

Record IShapeDrawer := { drawer_init : bool; drawer_destroy : bool }.

Inductive Hook : Type := HInit | HStart | HStartAsync | HStop | HPause | HPlay.

Inductive Event : Type :=
| PluginCall (plugin : string) (hook : Hook)
| DrawerInitCall (shape : string)
| DrawerDestroyCall (shape : string)
| AddListeners
| RemoveListeners.

(** The fields of the class.  A field that [destroy] removes with
    [delete] is an [option]; [interactivity], [bubble], [repulse],
    [drawer] and [eventListeners] are never looked into by the methods
    below, so only their presence is kept.  [drawers] is a JavaScript
    object used as a map from shape type to drawer: an association list
    in the order in which the keys were created, which [for .. in]
    visits in the order [forIn] gives. *)
Record Container := {
  id : string;
  interactivity : option unit;
  options : option Options;
  retina : option Retina;
  canvas : option Canvas;
  drawers : list (string * IShapeDrawer);
  particles : option Particles;
  plugins : list IPlugin;
  bubble : option unit;
  repulse : option unit;
  lastFrameTime : number;
  pageHidden : bool;
  drawer : option unit;
  started : bool;
  destroyed : bool;
  paused : bool;
  drawAnimationFrame : option handle;
  eventListeners : option unit
}.

(** Field assignments [this.f = v] ([None] for [delete this.f]). *)
Definition set_interactivity v (c : Container) : Container :=
    {| id := id c; interactivity := v; options := options c;
       retina := retina c; canvas := canvas c; drawers := drawers c;
       particles := particles c; plugins := plugins c; bubble := bubble c;
       repulse := repulse c; lastFrameTime := lastFrameTime c;
       pageHidden := pageHidden c; drawer := drawer c; started := started c;
       destroyed := destroyed c; paused := paused c;
       drawAnimationFrame := drawAnimationFrame c;
       eventListeners := eventListeners c |}.
Definition set_options v (c : Container) : Container :=
    {| id := id c; interactivity := interactivity c; options := v;
       retina := retina c; canvas := canvas c; drawers := drawers c;
       particles := particles c; plugins := plugins c; bubble := bubble c;
       repulse := repulse c; lastFrameTime := lastFrameTime c;
       pageHidden := pageHidden c; drawer := drawer c; started := started c;
       destroyed := destroyed c; paused := paused c;
       drawAnimationFrame := drawAnimationFrame c;
       eventListeners := eventListeners c |}.
Definition set_retina v (c : Container) : Container :=
    {| id := id c; interactivity := interactivity c; options := options c;
       retina := v; canvas := canvas c; drawers := drawers c;
       particles := particles c; plugins := plugins c; bubble := bubble c;
       repulse := repulse c; lastFrameTime := lastFrameTime c;
       pageHidden := pageHidden c; drawer := drawer c; started := started c;
       destroyed := destroyed c; paused := paused c;
       drawAnimationFrame := drawAnimationFrame c;
       eventListeners := eventListeners c |}.
Definition set_canvas v (c : Container) : Container :=
    {| id := id c; interactivity := interactivity c; options := options c;
       retina := retina c; canvas := v; drawers := drawers c;
       particles := particles c; plugins := plugins c; bubble := bubble c;
       repulse := repulse c; lastFrameTime := lastFrameTime c;
       pageHidden := pageHidden c; drawer := drawer c; started := started c;
       destroyed := destroyed c; paused := paused c;
       drawAnimationFrame := drawAnimationFrame c;
       eventListeners := eventListeners c |}.
Definition set_drawers v (c : Container) : Container :=
    {| id := id c; interactivity := interactivity c; options := options c;
       retina := retina c; canvas := canvas c; drawers := v;
       particles := particles c; plugins := plugins c; bubble := bubble c;
       repulse := repulse c; lastFrameTime := lastFrameTime c;
       pageHidden := pageHidden c; drawer := drawer c; started := started c;
       destroyed := destroyed c; paused := paused c;
       drawAnimationFrame := drawAnimationFrame c;
       eventListeners := eventListeners c |}.
Definition set_particles v (c : Container) : Container :=
    {| id := id c; interactivity := interactivity c; options := options c;
       retina := retina c; canvas := canvas c; drawers := drawers c;
       particles := v; plugins := plugins c; bubble := bubble c;
       repulse := repulse c; lastFrameTime := lastFrameTime c;
       pageHidden := pageHidden c; drawer := drawer c; started := started c;
       destroyed := destroyed c; paused := paused c;
       drawAnimationFrame := drawAnimationFrame c;
       eventListeners := eventListeners c |}.
Definition set_plugins v (c : Container) : Container :=
    {| id := id c; interactivity := interactivity c; options := options c;
       retina := retina c; canvas := canvas c; drawers := drawers c;
       particles := particles c; plugins := v; bubble := bubble c;
       repulse := repulse c; lastFrameTime := lastFrameTime c;
       pageHidden := pageHidden c; drawer := drawer c; started := started c;
       destroyed := destroyed c; paused := paused c;
       drawAnimationFrame := drawAnimationFrame c;
       eventListeners := eventListeners c |}.
Definition set_bubble v (c : Container) : Container :=
    {| id := id c; interactivity := interactivity c; options := options c;
       retina := retina c; canvas := canvas c; drawers := drawers c;
       particles := particles c; plugins := plugins c; bubble := v;
       repulse := repulse c; lastFrameTime := lastFrameTime c;
       pageHidden := pageHidden c; drawer := drawer c; started := started c;
       destroyed := destroyed c; paused := paused c;
       drawAnimationFrame := drawAnimationFrame c;
       eventListeners := eventListeners c |}.
Definition set_repulse v (c : Container) : Container :=
    {| id := id c; interactivity := interactivity c; options := options c;
       retina := retina c; canvas := canvas c; drawers := drawers c;
       particles := particles c; plugins := plugins c; bubble := bubble c;
       repulse := v; lastFrameTime := lastFrameTime c;
       pageHidden := pageHidden c; drawer := drawer c; started := started c;
       destroyed := destroyed c; paused := paused c;
       drawAnimationFrame := drawAnimationFrame c;
       eventListeners := eventListeners c |}.
Definition set_lastFrameTime v (c : Container) : Container :=
    {| id := id c; interactivity := interactivity c; options := options c;
       retina := retina c; canvas := canvas c; drawers := drawers c;
       particles := particles c; plugins := plugins c; bubble := bubble c;
       repulse := repulse c; lastFrameTime := v; pageHidden := pageHidden c;
       drawer := drawer c; started := started c; destroyed := destroyed c;
       paused := paused c; drawAnimationFrame := drawAnimationFrame c;
       eventListeners := eventListeners c |}.
Definition set_pageHidden v (c : Container) : Container :=
    {| id := id c; interactivity := interactivity c; options := options c;
       retina := retina c; canvas := canvas c; drawers := drawers c;
       particles := particles c; plugins := plugins c; bubble := bubble c;
       repulse := repulse c; lastFrameTime := lastFrameTime c;
       pageHidden := v; drawer := drawer c; started := started c;
       destroyed := destroyed c; paused := paused c;
       drawAnimationFrame := drawAnimationFrame c;
       eventListeners := eventListeners c |}.
Definition set_drawer v (c : Container) : Container :=
    {| id := id c; interactivity := interactivity c; options := options c;
       retina := retina c; canvas := canvas c; drawers := drawers c;
       particles := particles c; plugins := plugins c; bubble := bubble c;
       repulse := repulse c; lastFrameTime := lastFrameTime c;
       pageHidden := pageHidden c; drawer := v; started := started c;
       destroyed := destroyed c; paused := paused c;
       drawAnimationFrame := drawAnimationFrame c;
       eventListeners := eventListeners c |}.
Definition set_started v (c : Container) : Container :=
    {| id := id c; interactivity := interactivity c; options := options c;
       retina := retina c; canvas := canvas c; drawers := drawers c;
       particles := particles c; plugins := plugins c; bubble := bubble c;
       repulse := repulse c; lastFrameTime := lastFrameTime c;
       pageHidden := pageHidden c; drawer := drawer c; started := v;
       destroyed := destroyed c; paused := paused c;
       drawAnimationFrame := drawAnimationFrame c;
       eventListeners := eventListeners c |}.
Definition set_destroyed v (c : Container) : Container :=
    {| id := id c; interactivity := interactivity c; options := options c;
       retina := retina c; canvas := canvas c; drawers := drawers c;
       particles := particles c; plugins := plugins c; bubble := bubble c;
       repulse := repulse c; lastFrameTime := lastFrameTime c;
       pageHidden := pageHidden c; drawer := drawer c; started := started c;
       destroyed := v; paused := paused c;
       drawAnimationFrame := drawAnimationFrame c;
       eventListeners := eventListeners c |}.
Definition set_paused v (c : Container) : Container :=
    {| id := id c; interactivity := interactivity c; options := options c;
       retina := retina c; canvas := canvas c; drawers := drawers c;
       particles := particles c; plugins := plugins c; bubble := bubble c;
       repulse := repulse c; lastFrameTime := lastFrameTime c;
       pageHidden := pageHidden c; drawer := drawer c; started := started c;
       destroyed := destroyed c; paused := v;
       drawAnimationFrame := drawAnimationFrame c;
       eventListeners := eventListeners c |}.
Definition set_drawAnimationFrame v (c : Container) : Container :=
    {| id := id c; interactivity := interactivity c; options := options c;
       retina := retina c; canvas := canvas c; drawers := drawers c;
       particles := particles c; plugins := plugins c; bubble := bubble c;
       repulse := repulse c; lastFrameTime := lastFrameTime c;
       pageHidden := pageHidden c; drawer := drawer c; started := started c;
       destroyed := destroyed c; paused := paused c; drawAnimationFrame := v;
       eventListeners := eventListeners c |}.
Definition set_eventListeners v (c : Container) : Container :=
    {| id := id c; interactivity := interactivity c; options := options c;
       retina := retina c; canvas := canvas c; drawers := drawers c;
       particles := particles c; plugins := plugins c; bubble := bubble c;
       repulse := repulse c; lastFrameTime := lastFrameTime c;
       pageHidden := pageHidden c; drawer := drawer c; started := started c;
       destroyed := destroyed c; paused := paused c;
       drawAnimationFrame := drawAnimationFrame c; eventListeners := v |}.

(** [this.particles.lineLinkedColor] *)
Definition set_lineLinkedColor (v : option string) (p : Particles) : Particles :=
  {| count := count p; lineLinkedColor := v |}.

(** [this.drawers[type] = d]: the entries are kept in the order in
    which their keys were created; an existing key keeps its place. *)
Fixpoint drawers_set (type : string) (d : IShapeDrawer)
    (ds : list (string * IShapeDrawer)) : list (string * IShapeDrawer) :=
  match ds with
  | [] => [(type, d)]
  | (k, d0) :: rest =>
      if String.eqb k type then (k, d) :: rest
      else (k, d0) :: drawers_set type d rest
  end.

(** The state left by the constructor, given the loaded options (presets
    first, then the caller's parameters) and the fresh subordinates,
    whose classes are outside the source tree. *)
Definition constructed (id0 : string) (opts : Options) (rt : Retina)
    (cv : Canvas) (ps : Particles) : Container :=
  {| id := id0; interactivity := Some tt; options := Some opts;
     retina := Some rt; canvas := Some cv; drawers := [];
     particles := Some ps; plugins := []; bubble := Some tt;
     repulse := Some tt; lastFrameTime := Number.ofZ 0; pageHidden := false;
     drawer := Some tt; started := false; destroyed := false;
     paused := true; drawAnimationFrame := None;
     eventListeners := Some tt |}.

(** The value of a decimal digit, and of a string of them after [acc]. *)
Definition digit (a : ascii) : option N :=
  let n := N_of_ascii a in
  if (48 <=? n)%N && (n <=? 57)%N then Some (n - 48)%N else None.

Fixpoint decimal (s : string) (acc : N) : option N :=
  match s with
  | EmptyString => Some acc
  | String a rest =>
      match digit a with
      | Some d => decimal rest (10 * acc + d)%N
      | None => None
      end
  end.

(** A property name that is an array index: the canonical decimal form
    (no leading zero, no sign) of an integer below [2 ^ 32 - 1]. *)
Definition arrayIndex (s : string) : option N :=
  match s with
  | EmptyString => None
  | String "0"%char EmptyString => Some 0%N
  | String "0"%char _ => None
  | _ =>
      match decimal s 0 with
      | Some n => if (n <=? 4294967294)%N then Some n else None
      | None => None
      end
  end.

(** An entry placed by ascending index among entries already in order. *)
Fixpoint insertIndexed {A : Type} (i : N) (e : string * A)
    (l : list (N * (string * A))) : list (N * (string * A)) :=
  match l with
  | [] => [(i, e)]
  | (j, e') :: rest =>
      if (i <? j)%N then (i, e) :: l
      else (j, e') :: insertIndexed i e rest
  end.

(** The entries whose key is an array index, by ascending index. *)
Fixpoint indexed {A : Type} (ds : list (string * A))
  : list (N * (string * A)) :=
  match ds with
  | [] => []
  | e :: rest =>
      match arrayIndex (fst e) with
      | Some i => insertIndexed i e (indexed rest)
      | None => indexed rest
      end
  end.

(** [for (const type in this.drawers)]: the order in which the keys of
    an object are visited is the array indices first, ascending, and
    then the other names in the order in which they were created. *)
Definition forIn {A : Type} (ds : list (string * A)) : list (string * A) :=
  map snd (indexed ds)
  ++ filter (fun e => match arrayIndex (fst e) with
                      | Some _ => false
                      | None => true
                      end) ds.

(** *** The host and the world *)

(** [window]: the frame requests that are scheduled and not yet fired or
    cancelled, the next handle [requestAnimationFrame] hands out, and the
    reading of [performance.now()]. *)
Record Window := {
  frameRequests : list handle;
  nextHandle : handle;
  performance_now : number
}.

Record World := {
  this : Container;
  window : Window;
  calls : list Event
}.

Definition set_this (c : Container) (w : World) : World :=
  {| this := c; window := window w; calls := calls w |}.
Definition set_window (h : Window) (w : World) : World :=
  {| this := this w; window := h; calls := calls w |}.
Definition log (e : Event) (w : World) : World :=
  {| this := this w; window := window w; calls := calls w ++ [e] |}.

(** *** Completions: a method returns or throws *)

Inductive Error : Type :=
| TypeError (property : string).

Inductive Completion (A : Type) : Type :=
| Normal (a : A)
| Throw (e : Error).
Arguments Throw {A} e.

(** A method body: the world it leaves is kept when it throws, as the
    assignments made before a JavaScript exception are. *)
Definition M (A : Type) : Type := World -> Completion A * World.

Definition ret {A : Type} (a : A) : M A := fun w => (Normal a, w).

Definition bind {A B : Type} (m : M A) (k : A -> M B) : M B :=
  fun w =>
    match m w with
    | (Normal a, w') => k a w'
    | (Throw e, w') => (Throw e, w')
    end.

Definition throw {A : Type} (e : Error) : M A := fun w => (Throw e, w).

Declare Scope js_scope.
Delimit Scope js_scope with js.
Notation "x <- m ;; k" := (bind m (fun x => k))
  (at level 61, m at next level, right associativity) : js_scope.
Notation "m ;; k" := (bind m (fun _ => k))
  (at level 61, right associativity) : js_scope.
Open Scope js_scope.

(** [this.f] *)
Definition gets {A : Type} (f : Container -> A) : M A :=
  fun w => (Normal (f (this w)), w).

(** [this.f.g ...]: reading a property of [this.f] throws a [TypeError]
    when the field has been deleted. *)
Definition deref {A : Type} (name : string) (f : Container -> option A) : M A :=
  fun w =>
    match f (this w) with
    | Some a => (Normal a, w)
    | None => (Throw (TypeError name), w)
    end.

Definition modify (f : Container -> Container) : M unit :=
  fun w => (Normal tt, set_this (f (this w)) w).

Definition call (e : Event) : M unit := fun w => (Normal tt, log e w).

Definition lift {A : Type} (r : Completion A) : M A := fun w => (r, w).

Definition when (b : bool) (m : M unit) : M unit := if b then m else ret tt.

(** [for (const x of xs) { body }] *)
Fixpoint forEach {A : Type} (xs : list A) (body : A -> M unit) : M unit :=
  match xs with
  | [] => ret tt
  | x :: rest => body x ;; forEach rest body
  end.

(** A value used as a condition: [undefined] and [false] are falsy. *)
Definition truthy (b : option bool) : bool :=
  match b with
  | Some true => true
  | _ => false
  end.

(** [Container.requestFrame]: the host schedules the callback and
    returns a fresh handle. *)
Definition requestFrame : M handle :=
  fun w =>
    let h := nextHandle (window w) in
    (Normal h,
     set_window {| frameRequests := frameRequests (window w) ++ [h];
                   nextHandle := S h;
                   performance_now := performance_now (window w) |} w).

(** [Container.cancelAnimation]: the request with this handle, if it is
    still scheduled, is dropped. *)
Definition cancelAnimation (h : handle) : M unit :=
  fun w =>
    (Normal tt,
     set_window {| frameRequests :=
                     filter (fun h' => negb (Nat.eqb h' h))
                            (frameRequests (window w));
                   nextHandle := nextHandle (window w);
                   performance_now := performance_now (window w) |} w).

Definition now : M number :=
  fun w => (Normal (performance_now (window w)), w).

(** *** Collaborators *)

(** The classes [Retina], [Canvas] and [Particles] and the registries
    [Plugins] and [CanvasUtils] are outside the source tree.  Their
    methods are an interface here: each acts on the state of its own
    object.  [Plugins_getAvailablePlugins] inspects the container and may
    itself throw. *)
Class Collaborators : Type := {
  Retina_init : Retina -> Retina;
  Retina_reset : Retina -> Retina;
  Canvas_init : Canvas -> Canvas;
  Canvas_clear : Canvas -> Canvas;
  Canvas_destroy : Canvas -> Canvas;
  Particles_init : Particles -> Particles;
  Particles_clear : Particles -> Particles;
  Particles_push : number -> Particles -> Particles;
  Particles_removeQuantity : number -> Particles -> Particles;
  Plugins_getAvailablePlugins : Container -> Completion (list IPlugin);
  CanvasUtils_getShapeDrawer : string -> IShapeDrawer
}.

(** *** Methods *)

Section Methods.

Context {collaborators : Collaborators}.

(** [play(force?)] *)
Definition play (force : option bool) : M unit :=
  paused0 <- gets paused ;;
  (* const needsUpdate = this.paused || force; *)
  let needsUpdate := paused0 || truthy force in
  when paused0 (modify (set_paused false)) ;;
  when needsUpdate
    (ps <- gets plugins ;;
     forEach ps (fun plugin =>
       when (plugin_play plugin)
            (call (PluginCall (plugin_name plugin) HPlay))) ;;
     t <- now ;;
     modify (set_lastFrameTime t)) ;;
  h <- requestFrame ;;
  modify (set_drawAnimationFrame (Some h)).

(** [pause()] *)
Definition pause : M unit :=
  frame <- gets drawAnimationFrame ;;
  match frame with
  | Some h =>
      cancelAnimation h ;;
      modify (set_drawAnimationFrame None)
  | None => ret tt
  end ;;
  paused0 <- gets paused ;;
  when (negb paused0)
    (ps <- gets plugins ;;
     forEach ps (fun plugin =>
       when (plugin_pause plugin)
            (call (PluginCall (plugin_name plugin) HPause))) ;;
     hidden <- gets pageHidden ;;
     when (negb hidden) (modify (set_paused true))).

(** [getAnimationStatus()] *)
Definition getAnimationStatus (c : Container) : bool := negb (paused c).

(** The local [particlesNumber] of [densityAutoParticles]: the area of
    the canvas element in thousands of pixels, scaled down on a retina
    display, times the configured number over the density area, each
    operation rounded as it is made. *)
Definition particlesNumber (el : CanvasElement) (rt : Retina)
    (num : ParticlesNumber) : number :=
  (* let area = this.canvas.element.width * this.canvas.element.height / 1000 *)
  let area :=
    Number.div (Number.mul (width el) (height el)) (Number.ofZ 1000) in
  (* if (this.retina.isRetina) area /= this.retina.pixelRatio * 2 *)
  let area :=
    if isRetina rt
    then Number.div area (Number.mul (pixelRatio rt) (Number.ofZ 2))
    else area in
  let optParticlesNumber := number_value num in
  let density := density_area (number_density num) in
  (* (area * optParticlesNumber) / density *)
  Number.div (Number.mul area optParticlesNumber) density.

(** [densityAutoParticles()].  The subordinates are read in the order
    of the body: canvas, options, retina, particles. *)
Definition densityAutoParticles : M unit :=
  cv <- deref "canvas" canvas ;;
  match element cv with
  | None => ret tt
  | Some el =>
      opts <- deref "options" options ;;
      let num := particles_number (options_particles opts) in
      if negb (density_enable (number_density num)) then ret tt
      else
        rt <- deref "retina" retina ;;
        let particlesNumber := particlesNumber el rt num in
        ps <- deref "particles" particles ;;
        let particlesCount := Number.ofNat (count ps) in
        if Number.lt particlesCount particlesNumber then
          (* this.particles.push(Math.abs(particlesNumber - particlesCount)) *)
          modify (set_particles
            (Some (Particles_push
                     (Number.abs (Number.sub particlesNumber particlesCount))
                     ps)))
        else if Number.lt particlesNumber particlesCount then
          (* this.particles.removeQuantity(particlesCount - particlesNumber) *)
          modify (set_particles
            (Some (Particles_removeQuantity
                     (Number.sub particlesCount particlesNumber) ps)))
        else ret tt
  end.

(** [stop()] *)
Definition stop : M unit :=
  started0 <- gets started ;;
  if negb started0 then ret tt
  else
    modify (set_started false) ;;
    _ <- deref "eventListeners" eventListeners ;;
    call RemoveListeners ;;
    pause ;;
    ps <- deref "particles" particles ;;
    modify (set_particles (Some (Particles_clear ps))) ;;
    rt <- deref "retina" retina ;;
    modify (set_retina (Some (Retina_reset rt))) ;;
    cv <- deref "canvas" canvas ;;
    modify (set_canvas (Some (Canvas_clear cv))) ;;
    pl <- gets plugins ;;
    forEach pl (fun plugin =>
      when (plugin_stop plugin)
           (call (PluginCall (plugin_name plugin) HStop))) ;;
    modify (set_plugins []) ;;
    ps <- deref "particles" particles ;;
    modify (set_particles (Some (set_lineLinkedColor None ps))).

(** [destroy()] *)
Definition destroy : M unit :=
  stop ;;
  rt <- deref "retina" retina ;;
  modify (set_retina (Some (Retina_reset rt))) ;;
  cv <- deref "canvas" canvas ;;
  modify (set_canvas (Some (Canvas_destroy cv))) ;;
  modify (set_interactivity None) ;;
  modify (set_options None) ;;
  modify (set_retina None) ;;
  modify (set_canvas None) ;;
  modify (set_particles None) ;;
  modify (set_bubble None) ;;
  modify (set_repulse None) ;;
  modify (set_drawer None) ;;
  modify (set_eventListeners None) ;;
  ds <- gets drawers ;;
  forEach (forIn ds) (fun entry =>
    when (drawer_destroy (snd entry))
         (call (DrawerDestroyCall (fst entry)))) ;;
  modify (set_drawers []) ;;
  modify (set_destroyed true).

(** [init()] (private) *)
Definition init : M unit :=
  rt <- deref "retina" retina ;;
  modify (set_retina (Some (Retina_init rt))) ;;
  cv <- deref "canvas" canvas ;;
  modify (set_canvas (Some (Canvas_init cv))) ;;
  ps <- deref "particles" particles ;;
  modify (set_particles (Some (Particles_init ps))) ;;
  pl <- gets plugins ;;
  forEach pl (fun plugin =>
    when (plugin_init plugin)
         (call (PluginCall (plugin_name plugin) HInit))) ;;
  densityAutoParticles.

(** [this.drawers[type] = CanvasUtils.getShapeDrawer(type)] *)
Definition resolveDrawer (type : string) : M unit :=
  modify (fun c =>
    set_drawers
      (drawers_set type (CanvasUtils_getShapeDrawer type) (drawers c)) c).

(** [start()].  The method is asynchronous; the hooks it awaits
    ([startAsync], a drawer's [init]) are awaited one after the other,
    and the steps are taken here in that order, without another task
    running in between.  A throw stands for the rejected promise. *)
Definition start : M unit :=
  started0 <- gets started ;;
  if started0 then ret tt
  else
    c <- gets (fun c => c) ;;
    available <- lift (Plugins_getAvailablePlugins c) ;;
    forEach available (fun plugin =>
      modify (fun c => set_plugins (plugins c ++ [plugin]) c)) ;;
    modify (set_started true) ;;
    _ <- deref "eventListeners" eventListeners ;;
    call AddListeners ;;
    pl <- gets plugins ;;
    forEach pl (fun plugin =>
      if plugin_startAsync plugin then
        call (PluginCall (plugin_name plugin) HStartAsync)
      else
        when (plugin_start plugin)
             (call (PluginCall (plugin_name plugin) HStart))) ;;
    opts <- deref "options" options ;;
    match shape_type (particles_shape (options_particles opts)) with
    | Multiple types => forEach types resolveDrawer
    | Single type => resolveDrawer type
    end ;;
    ds <- gets drawers ;;
    forEach (forIn ds) (fun entry =>
      when (drawer_init (snd entry))
           (call (DrawerInitCall (fst entry)))) ;;
    init ;;
    play None.


(** A sequence of calls of the two frame-loop methods. *)
Inductive FrameCall : Type :=
| Play (force : option bool)
| Pause.

Definition frameCall (c : FrameCall) : M unit :=
  match c with
  | Play force => play force
  | Pause => pause
  end.

Definition frameCalls (cs : list FrameCall) : M unit := forEach cs frameCall.

End Methods.

(** *** The particle collection's contract *)

(** Modelled from the spec: [Particles.push] and
    [Particles.removeQuantity] of Core/Particles.ts, which is not part of
    the source tree.  Section 4.2: [push(quantity)] creates [quantity]
    new particles; [removeQuantity(quantity)] removes up to [quantity]
    particles (all of them, for a quantity the collection still holds);
    [count] is the length of the collection.  What the two make of a
    quantity that is not a whole number is left open. *)
Record ParticlesContract (col : Collaborators) : Prop := {
  push_whole : forall (n : nat) (ps : Particles),
    Number.safe n ->
    count (Particles_push (Number.ofNat n) ps) = (count ps + n)%nat;
  removeQuantity_whole : forall (n : nat) (ps : Particles),
    Number.safe n -> (n <= count ps)%nat ->
    count (Particles_removeQuantity (Number.ofNat n) ps)
    = (count ps - n)%nat
}.

(** The density target in the words of section 4.2 of the spec: the
    usable area [width * height / 1000], divided by [2 * pixelRatio] on
    a high-density surface, times the configured number over the
    density. *)
Definition densityTarget (w h : number) (highDensity : bool)
    (ratio configuredNumber density : number) : number :=
  let area := Number.div (Number.mul w h) (Number.ofZ 1000) in
  let area :=
    if highDensity
    then Number.div area (Number.mul (Number.ofZ 2) ratio)
    else area in
  Number.div (Number.mul area configuredNumber) density.


(** The frame loop is idle or holds one request, the stored one: every
    scheduled request is the one whose handle [drawAnimationFrame]
    keeps. *)
Definition onlyStoredRequest (w : World) : Prop :=
  match frameRequests (window w) with
  | [] => True
  | [h] => drawAnimationFrame (this w) = Some h
  | _ => False
  end.

(** No [play] directly after a [play], given whether the previous call
    was one. *)
Fixpoint noPlayAfterPlay (afterPlay : bool) (cs : list FrameCall) : bool :=
  match cs with
  | [] => true
  | Play _ :: rest => negb afterPlay && noPlayAfterPlay true rest
  | Pause :: rest => noPlayAfterPlay false rest
  end.

(** The plug-in hooks [play] (or [pause], ...) calls, in order. *)
Definition hookCalls (has : IPlugin -> bool) (hook : Hook)
    (ps : list IPlugin) : list Event :=
  map (fun p => PluginCall (plugin_name p) hook) (filter has ps).

(** Every subordinate that [destroy] releases is still there. *)
Definition alive (c : Container) : Prop :=
  options c <> None /\ retina c <> None /\ canvas c <> None /\
  particles c <> None /\ eventListeners c <> None.

End Core.

(* ================================================================= *)
(** ** Sample objects *)

Module Samples.

Import Core.

(** A whole quantity as a number of particles; none for a quantity
    that is not finite or is negative. *)
Definition whole (z : option Z) : nat :=
  match z with
  | Some z => Z.to_nat z
  | None => 0
  end.

(** Modelled from the spec: a particle collection and the other
    subordinates, whose classes are not part of the source tree.
    Section 4.2: [push] creates the requested number of particles and
    [removeQuantity] removes up to the requested number, never more
    than it and never more than there are.  For a quantity that is not
    whole, [push] here counts up to the quantity, one particle for
    every count below it (the least whole number not below the
    quantity), and [removeQuantity] removes the whole part of the
    quantity; [clear] empties the collection.  Section 4.3: destroying
    the canvas releases the surface.  No plug-in is registered. *)
Definition collaborators : Collaborators :=
  {| Retina_init := fun r => r;
     Retina_reset := fun r => r;
     Canvas_init := fun c => c;
     Canvas_clear := fun c => c;
     Canvas_destroy := fun _ => {| element := None |};
     Particles_init := fun p => p;
     Particles_clear := fun p =>
       {| count := 0; lineLinkedColor := lineLinkedColor p |};
     Particles_push := fun q p =>
       {| count := count p + whole (Number.ceil q);
          lineLinkedColor := lineLinkedColor p |};
     Particles_removeQuantity := fun q p =>
       {| count := count p - whole (Number.floor q);
          lineLinkedColor := lineLinkedColor p |};
     Plugins_getAvailablePlugins := fun _ => Normal [];
     CanvasUtils_getShapeDrawer := fun _ =>
       {| drawer_init := false; drawer_destroy := true |} |}.

(** Options with [particles.number = { value: n, density: { enable:
    true, area: d } }] and the single shape type ["circle"]. *)
Definition options (n d : number) : Options :=
  {| options_particles :=
       {| particles_number :=
            {| number_value := n;
               number_density :=
                 {| density_enable := true; density_area := d |} |};
          particles_shape := {| shape_type := Single "circle"%string |} |} |}.

(** A canvas of [w] by [h] pixels; 1000 by 1000 make an area of 1000. *)
Definition canvasOf (w h : Z) : Canvas :=
  {| element :=
       Some {| width := Number.ofZ w; height := Number.ofZ h |} |}.

Definition canvas1000 : Canvas := canvasOf 1000 1000.

Definition plainRetina : Retina :=
  {| isRetina := false; pixelRatio := Number.ofZ 1 |}.

Definition window0 : Window :=
  {| frameRequests := []; nextHandle := 1%nat;
     performance_now := Number.ofZ 42 |}.

(** A plug-in that implements every hook. *)
Definition plugin : IPlugin :=
  {| plugin_name := "mask"; plugin_init := true; plugin_start := true;
     plugin_startAsync := false; plugin_stop := true; plugin_pause := true;
     plugin_play := true |}.

(** A container as the constructor leaves it, on the canvas [cv], with
    [n] particles configured per density area [d] and [k] particles in
    the collection. *)
Definition freshOn (cv : Canvas) (n d : Z) (k : nat) : World :=
  {| this := constructed "tsparticles"
               (options (Number.ofZ n) (Number.ofZ d)) plainRetina cv
               {| count := k; lineLinkedColor := None |};
     window := window0;
     calls := [] |}.

(** The same on a canvas of area 1000. *)
Definition fresh (n d : Z) (k : nat) : World := freshOn canvas1000 n d k.

(** The world a method leaves. *)
Definition after {A : Type} (m : M A) (w : World) : World := snd (m w).

(** A container that is playing with one plug-in attached. *)
Definition playing : World :=
  let w := fresh 1 800 0 in
  after (play None) (set_this (set_plugins [plugin] (this w)) w).

End Samples.

(** Instances of the mask options' parameters for closed examples: mask
    types and arrangements are strings, the other sub-options carry no
    data. *)
Module MaskSamples.

Import PolygonMask.

Definition load (this : PolygonMask string string unit unit unit unit)
    (data : option (IPolygonMask string string unit unit unit unit))
  : PolygonMask string string unit unit unit unit :=
  PolygonMask.load string_dec "none"%string
    (fun d _ => d) (fun m _ => m) tt (fun s _ => s) (fun p : unit => p)
    this data.

Definition fresh : PolygonMask string string unit unit unit unit :=
  new "none"%string unit unit tt {| arrangement := "one-per-point"%string |} tt.

(** The input [{}]. *)
Definition empty : IPolygonMask string string unit unit unit unit :=
  empty_data string string unit unit unit unit.

(** The input [{ enable: true }]. *)
Definition enabled : IPolygonMask string string unit unit unit unit :=
  {| d_draw := None; d_enable := Some true; d_inline := None;
     d_inlineArrangement := None; d_move := None; d_position := None;
     d_scale := None; d_type := None; d_url := None; d_data := None |}.

End MaskSamples.

(* ================================================================= *)
(** ** Further definitions: the rest of the two classes *)

Module PolygonMaskMore.

Import PolygonMask.

Section Inputs.

Variables MaskType Arrangement Draw IDraw Move IMove : Type.
Variables LocalSvg ILocalSvg ICoordinates ICoordinatesPartial : Type.

(** An input object with its [inline] and [inlineArrangement] properties
    replaced: [{ ...data, inline: i, inlineArrangement: a }]. *)
Definition with_inline (i : option (IInline Arrangement))
    (a : option Arrangement)
    (data : IPolygonMask MaskType Arrangement IDraw IMove ILocalSvg
                         ICoordinatesPartial)
  : IPolygonMask MaskType Arrangement IDraw IMove ILocalSvg
                 ICoordinatesPartial :=
  {| d_draw := d_draw data; d_enable := d_enable data; d_inline := i;
     d_inlineArrangement := a; d_move := d_move data;
     d_position := d_position data; d_scale := d_scale data;
     d_type := d_type data; d_url := d_url data; d_data := d_data data |}.

End Inputs.

End PolygonMaskMore.

Module CoreMore.

Import Core.


(** Every scheduled request, and the stored handle, has been handed out
    by [requestAnimationFrame] before, and no request is scheduled
    twice. *)
Definition issuedHandles (w : World) : Prop :=
  Forall (fun h => (h < nextHandle (window w))%nat) (frameRequests (window w))
  /\ NoDup (frameRequests (window w))
  /\ (forall h, drawAnimationFrame (this w) = Some h ->
                (h < nextHandle (window w))%nat).

(** The number of [play] calls in a run. *)
Fixpoint plays (cs : list FrameCall) : nat :=
  match cs with
  | [] => 0
  | Play _ :: rest => S (plays rest)
  | Pause :: rest => plays rest
  end.

(** The types of [options.particles.shape.type], one or many. *)
Definition shapeTypes (t : SingleOrMultiple string) : list string :=
  match t with
  | Single a => [a]
  | Multiple l => l
  end.

(** [drawers[type]] *)
Fixpoint drawers_get (type : string) (ds : list (string * IShapeDrawer))
  : option IShapeDrawer :=
  match ds with
  | [] => None
  | (k, d) :: rest => if String.eqb k type then Some d else drawers_get type rest
  end.

(** The calls of the start loop of [start]: [startAsync] where a plug-in
    has it, else [start] where it has that. *)
Definition startHookCalls (ps : list IPlugin) : list Event :=
  flat_map (fun p =>
    if plugin_startAsync p then [PluginCall (plugin_name p) HStartAsync]
    else if plugin_start p then [PluginCall (plugin_name p) HStart]
    else []) ps.

(** The calls of a loop over the drawers that calls one optional hook. *)
Definition drawerCalls (has : IShapeDrawer -> bool) (event : string -> Event)
    (ds : list (string * IShapeDrawer)) : list Event :=
  map (fun entry => event (fst entry))
      (filter (fun entry => has (snd entry)) ds).

(** A plug-in that has both [start] and [startAsync]. *)
Definition asyncPlugin : IPlugin :=
  {| plugin_name := "emitters"; plugin_init := false; plugin_start := true;
     plugin_startAsync := true; plugin_stop := false; plugin_pause := false;
     plugin_play := false |}.

(** The sample subordinates with a registry that answers with two
    plug-ins for every container. *)
Definition plugged : Collaborators :=
  {| Retina_init := @Retina_init Samples.collaborators;
     Retina_reset := @Retina_reset Samples.collaborators;
     Canvas_init := @Canvas_init Samples.collaborators;
     Canvas_clear := @Canvas_clear Samples.collaborators;
     Canvas_destroy := @Canvas_destroy Samples.collaborators;
     Particles_init := @Particles_init Samples.collaborators;
     Particles_clear := @Particles_clear Samples.collaborators;
     Particles_push := @Particles_push Samples.collaborators;
     Particles_removeQuantity :=
       @Particles_removeQuantity Samples.collaborators;
     Plugins_getAvailablePlugins := fun _ =>
       Normal [Samples.plugin; asyncPlugin];
     CanvasUtils_getShapeDrawer :=
       @CanvasUtils_getShapeDrawer Samples.collaborators |}.

(** A container that has been started with those two plug-ins. *)
Definition running : World :=
  Samples.after (start (collaborators := plugged)) (Samples.fresh 1 800 0).

(** A container configured with three shape types, one of them named
    by a word and two by array indices, and started. *)
Definition numbered : World :=
  let w := Samples.fresh 1 800 0 in
  let o :=
    {| options_particles :=
         {| particles_number :=
              {| number_value := Number.ofZ 1;
                 number_density :=
                   {| density_enable := true;
                      density_area := Number.ofZ 800 |} |};
            particles_shape :=
              {| shape_type := Multiple ["star"; "10"; "2"]%string |} |} |} in
  Samples.after (start (collaborators := plugged))
    (set_this (set_options (Some o) (this w)) w).

(** The same container once the page has been hidden. *)
Definition hidden : World :=
  set_this (set_pageHidden true (this running)) running.

End CoreMore.


(* ================================================================= *)
(** ** Numbers: whole numbers in double arithmetic *)

(** Below [2 ^ 53] the doubles hold every whole number, and comparison
    and subtraction of whole numbers are exact. *)

Module NumberSpec.

Import Number.

Lemma shl_S p t : shl p (S t) = xO (shl p t).
Proof. reflexivity. Qed.

Lemma shl_add p a b : shl (shl p a) b = shl p (a + b).
Proof.
  unfold shl. rewrite Nat.add_comm. rewrite Nat.iter_add. reflexivity.
Qed.

Lemma Pos_iter_shl p s : Pos.iter xO p s = shl p (Pos.to_nat s).
Proof. unfold shl. rewrite Pos2Nat.inj_iter. reflexivity. Qed.

Lemma Zpos_shl p t : Zpos (shl p t) = (Zpos p * 2 ^ Z.of_nat t)%Z.
Proof.
  induction t as [|t IH].
  - simpl. lia.
  - rewrite shl_S, Nat2Z.inj_succ, Z.pow_succ_r by lia.
    rewrite Pos2Z.inj_xO, IH. lia.
Qed.

Lemma digits_Z p : Zpos (digits2_pos p) = Z.of_nat (digits p).
Proof. unfold digits. rewrite positive_nat_Z. reflexivity. Qed.

Lemma digits_shl p t : digits (shl p t) = (digits p + t)%nat.
Proof.
  unfold digits. induction t as [|t IH]; [simpl; lia|].
  rewrite shl_S. simpl digits2_pos. rewrite Pos2Nat.inj_succ, IH. lia.
Qed.

Lemma digits_pos p : (1 <= digits p)%nat.
Proof. unfold digits. lia. Qed.

Lemma digits2_size p : digits2_pos p = Pos.size p.
Proof. induction p; simpl; congruence. Qed.

Lemma digits_bounds p :
  (2 ^ (Z.of_nat (digits p) - 1) <= Zpos p < 2 ^ Z.of_nat (digits p))%Z.
Proof.
  rewrite <- digits_Z, digits2_size.
  pose proof (Pos.size_gt p) as Hgt. pose proof (Pos.size_le p) as Hle.
  assert (Hpow : forall q, Zpos (2 ^ q) = (2 ^ Zpos q)%Z).
  { intros q. rewrite Pos2Z.inj_pow. reflexivity. }
  split.
  - assert (2 ^ Zpos (Pos.size p) <= 2 * Zpos p)%Z.
    { rewrite <- Hpow. change (2 * Zpos p)%Z with (Zpos p~0). lia. }
    replace (Zpos (Pos.size p)) with (Z.succ (Zpos (Pos.size p) - 1)) in H
      by lia.
    rewrite Z.pow_succ_r in H by lia. lia.
  - rewrite <- Hpow. lia.
Qed.

Lemma digits_le p q : (p <= q)%positive -> (digits p <= digits q)%nat.
Proof.
  intros Hle.
  destruct (Nat.le_gt_cases (digits p) (digits q)) as [H|H]; [exact H|].
  exfalso.
  pose proof (digits_bounds p) as [Hp _].
  pose proof (digits_bounds q) as [_ Hq].
  assert (2 ^ Z.of_nat (digits q) <= 2 ^ (Z.of_nat (digits p) - 1))%Z.
  { apply Z.pow_le_mono_r; lia. }
  lia.
Qed.

Lemma fexp_eq (x : Z) : (-1074 <= x - 53)%Z -> fexp prec emax x = (x - 53)%Z.
Proof.
  intros H. unfold fexp, SpecFloat.emin, prec, emax.
  rewrite Z.max_l; lia.
Qed.

Lemma iter_pos_nat {A : Type} (f : A -> A) (p : positive) (x : A) :
  iter_pos f p x = Nat.iter (Pos.to_nat p) f x.
Proof.
  revert x. induction p as [p IH|p IH|]; intros x; cbn [iter_pos].
  - rewrite !IH. rewrite Pos2Nat.inj_xI.
    rewrite <- Nat.iter_add. rewrite <- Nat.iter_succ_r.
    f_equal. lia.
  - rewrite !IH. rewrite Pos2Nat.inj_xO.
    rewrite <- Nat.iter_add. f_equal. lia.
  - reflexivity.
Qed.

Lemma shr_nat (mrs : shr_record) (e : Z) (t : nat) :
  shr mrs e (Z.of_nat t) = (Nat.iter t shr_1 mrs, (e + Z.of_nat t)%Z).
Proof.
  destruct t as [|t].
  - simpl. rewrite Z.add_0_r. reflexivity.
  - change (Z.of_nat (S t)) with (Zpos (Pos.of_succ_nat t)).
    cbn [shr]. rewrite iter_pos_nat.
    rewrite SuccNat2Pos.id_succ. reflexivity.
Qed.

Lemma shr_1_exact (m : positive) (t : nat) :
  Nat.iter t shr_1 (Build_shr_record (Zpos (shl m t)) false false)
  = Build_shr_record (Zpos m) false false.
Proof.
  induction t as [|t IH]; [reflexivity|].
  rewrite Nat.iter_succ_r, shl_S. simpl shr_1. exact IH.
Qed.

Lemma shr_fexp_exact (m : positive) (t : nat) (e : Z) :
  digits m = 53%nat ->
  (-1074 <= e + Z.of_nat t)%Z ->
  shr_fexp prec emax (Zpos (shl m t)) e loc_Exact
  = (Build_shr_record (Zpos m) false false, (e + Z.of_nat t)%Z).
Proof.
  intros Hd He. unfold shr_fexp. simpl Zdigits2.
  rewrite digits_Z, digits_shl, Hd.
  rewrite fexp_eq by lia.
  replace (Z.of_nat (53 + t) + e - 53 - e)%Z with (Z.of_nat t) by lia.
  simpl shr_record_of_loc. rewrite shr_nat, shr_1_exact. reflexivity.
Qed.

Lemma binary_round_aux_exact (sx : bool) (m : positive) (t : nat) (e : Z) :
  digits m = 53%nat ->
  (-1074 <= e + Z.of_nat t <= 971)%Z ->
  binary_round_aux prec emax sx (Zpos (shl m t)) e loc_Exact
  = S754_finite sx m (e + Z.of_nat t).
Proof.
  intros Hd He. unfold binary_round_aux.
  rewrite shr_fexp_exact by (assumption || lia).
  cbn [shr_m loc_of_shr_record round_nearest_even].
  change (Zpos m) with (Zpos (shl m 0)).
  rewrite shr_fexp_exact by (assumption || simpl; lia).
  cbn [shr_m]. simpl Z.of_nat. rewrite Z.add_0_r.
  replace (Z.leb (e + Z.of_nat t) (emax - prec)) with true; [reflexivity|].
  symmetry. apply Z.leb_le. unfold emax, prec. lia.
Qed.

Lemma shl_align_nat (p : positive) (e e' : Z) :
  shl_align p e e' =
  if (e' <? e)%Z then (shl p (Z.to_nat (e - e')), e') else (p, e).
Proof.
  unfold shl_align. destruct (e' - e)%Z as [|d|d] eqn:Hd.
  - replace (e' <? e)%Z with false; [reflexivity|].
    symmetry. apply Z.ltb_ge. lia.
  - replace (e' <? e)%Z with false; [reflexivity|].
    symmetry. apply Z.ltb_ge. lia.
  - replace (e' <? e)%Z with true by (symmetry; apply Z.ltb_lt; lia).
    rewrite Pos_iter_shl. do 2 f_equal. lia.
Qed.

(** Rounding a mantissa that stands for [p * 2 ^ k] at exponent [- k]
    gives the canonical double of [p]. *)
Lemma binary_round_scaled (sx : bool) (p : positive) (k : nat) :
  (digits p <= 53)%nat ->
  (k <= 53)%nat ->
  binary_round prec emax sx (shl p k) (- Z.of_nat k) = normal sx p.
Proof.
  intros Hd Hk. pose proof (digits_pos p) as Hpos.
  unfold binary_round, normal.
  rewrite digits_Z, digits_shl, fexp_eq by lia.
  rewrite shl_align_nat.
  destruct (Z.ltb_spec (Z.of_nat (digits p + k) + - Z.of_nat k - 53)
                       (- Z.of_nat k)) as [Hlt | Hge].
  - (* shift left to 53 bits *)
    rewrite shl_add.
    replace (k + Z.to_nat (- Z.of_nat k
               - (Z.of_nat (digits p + k) + - Z.of_nat k - 53)))%nat
      with (53 - digits p)%nat by lia.
    change (shl p (53 - digits p)) with (shl (shl p (53 - digits p)) 0) at 1.
    rewrite shl_add, Nat.add_0_r.
    rewrite <- (Nat.add_0_r (53 - digits p)) at 1. rewrite <- shl_add.
    rewrite binary_round_aux_exact.
    + f_equal. simpl Z.of_nat. lia.
    + rewrite digits_shl. lia.
    + simpl Z.of_nat. lia.
  - (* already 53 bits or more: shift right, exactly *)
    replace k with ((53 - digits p) + (k - (53 - digits p)))%nat at 1 by lia.
    rewrite <- shl_add.
    rewrite binary_round_aux_exact.
    + f_equal. lia.
    + rewrite digits_shl. lia.
    + lia.
Qed.

Lemma ofZ_pos (p : positive) :
  (digits p <= 53)%nat -> ofZ (Zpos p) = normal false p.
Proof.
  intros Hd. unfold ofZ, binary_normalize.
  exact (@binary_round_scaled false p 0 Hd (Nat.le_0_l 53)).
Qed.

Lemma digits_safe (p : positive) : (Zpos p < 2 ^ 53)%Z -> (digits p <= 53)%nat.
Proof.
  intros H. pose proof (digits_bounds p) as [Hlo _].
  destruct (Nat.le_gt_cases (digits p) 53) as [Hle|Hgt]; [exact Hle|].
  exfalso.
  assert (2 ^ 53 <= 2 ^ (Z.of_nat (digits p) - 1))%Z
    by (apply Z.pow_le_mono_r; lia).
  lia.
Qed.

Lemma digits_lt (p q : positive) :
  (digits p < digits q)%nat -> (p < q)%positive.
Proof.
  intros Hlt. destruct (Pos.lt_total p q) as [H|[H|H]]; [exact H| |].
  - subst q. lia.
  - assert (digits q <= digits p)%nat by (apply digits_le; lia). lia.
Qed.

Lemma ofNat_0 : ofNat 0 = S754_zero false.
Proof. reflexivity. Qed.

Lemma ofNat_pos (p : positive) :
  (Zpos p < 2 ^ 53)%Z -> ofNat (Pos.to_nat p) = normal false p.
Proof.
  intros H. unfold ofNat. rewrite positive_nat_Z.
  apply ofZ_pos, digits_safe, H.
Qed.

Lemma abs_binary_round (m : positive) (e : Z) :
  SFabs (binary_round prec emax false m e) = binary_round prec emax false m e.
Proof.
  unfold binary_round, binary_round_aux.
  destruct (shl_align _ _ _) as [mz ez].
  destruct (shr_fexp _ _ _ _ _) as [mrs e1].
  destruct (shr_fexp _ _ _ _ _) as [mrs2 e2].
  destruct (shr_m mrs2); [reflexivity| |reflexivity].
  destruct (Z.leb _ _); reflexivity.
Qed.

Lemma abs_ofNat (n : nat) : abs (ofNat n) = ofNat n.
Proof.
  unfold abs, ofNat, ofZ, binary_normalize.
  destruct (Z.of_nat n) eqn:Hn; [reflexivity| |lia].
  apply abs_binary_round.
Qed.

Lemma compare_shl (p q : positive) (s : nat) :
  Pos.compare (shl p s) (shl q s) = Pos.compare p q.
Proof.
  induction s as [|s IH]; [reflexivity|].
  rewrite !shl_S. simpl. exact IH.
Qed.

Lemma lt_irrefl (x : number) : lt x x = false.
Proof.
  unfold lt, SFltb, SFcompare.
  destruct x as [s|s| |s m e]; try reflexivity.
  - destruct s; reflexivity.
  - rewrite Z.compare_refl.
    change (Pos.compare_cont Eq m m) with (Pos.compare m m).
    rewrite Pos.compare_refl. destruct s; reflexivity.
Qed.

Lemma lt_normal (p q : positive) :
  lt (normal false p) (normal false q) = (p <? q)%positive.
Proof.
  unfold lt, SFltb, SFcompare, normal.
  change (Pos.compare_cont Eq) with Pos.compare.
  destruct (Z.compare_spec (Z.of_nat (digits p) - 53)
                           (Z.of_nat (digits q) - 53)) as [He|He|He].
  - assert (Hd : digits p = digits q) by lia.
    rewrite Hd, compare_shl. reflexivity.
  - symmetry. apply Pos.ltb_lt. apply digits_lt. lia.
  - symmetry. apply Pos.ltb_ge.
    assert (q < p)%positive by (apply digits_lt; lia). lia.
Qed.

Lemma lt_ofNat (a b : nat) :
  safe a -> safe b -> lt (ofNat a) (ofNat b) = (a <? b)%nat.
Proof.
  unfold safe. intros Ha Hb.
  assert (Hpos : forall k, (Z.of_nat (S k) < 2 ^ 53)%Z ->
            ofNat (S k) = normal false (Pos.of_succ_nat k)).
  { intros k Hk. rewrite <- (SuccNat2Pos.id_succ k) at 1.
    apply ofNat_pos. lia. }
  destruct a as [|a], b as [|b].
  - reflexivity.
  - rewrite (Hpos b Hb), ofNat_0. reflexivity.
  - rewrite (Hpos a Ha), ofNat_0. reflexivity.
  - rewrite (Hpos a Ha), (Hpos b Hb), lt_normal.
    destruct (Pos.ltb_spec (Pos.of_succ_nat a) (Pos.of_succ_nat b));
      destruct (Nat.ltb_spec (S a) (S b)); try reflexivity; lia.
Qed.

Lemma sub_normal (p q : positive) :
  (q < p)%positive -> (digits p <= 53)%nat ->
  sub (normal false p) (normal false q) = normal false (p - q).
Proof.
  intros Hlt Hp.
  assert (Hq : (digits q <= digits p)%nat) by (apply digits_le; lia).
  assert (Hpq : (digits (p - q) <= 53)%nat).
  { assert (digits (p - q) <= digits p)%nat by (apply digits_le; lia). lia. }
  pose proof (digits_pos q) as Hq1.
  unfold sub, SFsub, normal. cbv zeta.
  rewrite Z.min_r by lia.
  rewrite !shl_align_nat.
  rewrite Z.ltb_irrefl.
  assert (Hp' : fst (if (Z.of_nat (digits q) - 53 <? Z.of_nat (digits p) - 53)%Z
                     then (shl (shl p (53 - digits p))
                             (Z.to_nat (Z.of_nat (digits p) - 53
                                        - (Z.of_nat (digits q) - 53))),
                           (Z.of_nat (digits q) - 53)%Z)
                     else (shl p (53 - digits p),
                           (Z.of_nat (digits p) - 53)%Z))
                = shl p (53 - digits q)).
  { destruct (Z.ltb_spec (Z.of_nat (digits q) - 53)
                         (Z.of_nat (digits p) - 53)) as [H|H]; cbn [fst].
    - rewrite shl_add. f_equal. lia.
    - f_equal. lia. }
  rewrite Hp'. cbn [fst cond_Zopp].
  assert (Hdiff : (Zpos (shl p (53 - digits q)) - Zpos (shl q (53 - digits q)))%Z
                  = Zpos (shl (p - q) (53 - digits q))).
  { rewrite !Zpos_shl. rewrite Pos2Z.inj_sub by exact Hlt. lia. }
  rewrite Hdiff. unfold binary_normalize.
  replace (Z.of_nat (digits q) - 53)%Z
    with (- Z.of_nat (53 - digits q))%Z by lia.
  apply binary_round_scaled; [exact Hpq | lia].
Qed.

Lemma ofNat_S (k : nat) :
  safe (S k) -> ofNat (S k) = normal false (Pos.of_succ_nat k).
Proof.
  unfold safe. intros Hk. rewrite <- (SuccNat2Pos.id_succ k) at 1.
  apply ofNat_pos. lia.
Qed.

Lemma sub_ofNat (a b : nat) :
  (b < a)%nat -> safe a -> sub (ofNat a) (ofNat b) = ofNat (a - b).
Proof.
  intros Hlt Ha.
  destruct a as [|a]; [lia|].
  rewrite (@ofNat_S a Ha). unfold safe in Ha.
  destruct b as [|b].
  - rewrite ofNat_0, Nat.sub_0_r, ofNat_S by exact Ha. reflexivity.
  - rewrite ofNat_S by (unfold safe; lia).
    rewrite sub_normal by (try apply digits_safe; lia).
    replace (S a - S b)%nat
      with (Pos.to_nat (Pos.of_succ_nat a - Pos.of_succ_nat b)) by lia.
    rewrite ofNat_pos by lia. reflexivity.
Qed.

Lemma round_normal (p : positive) :
  (digits p <= 53)%nat -> round (normal false p) = Some (Zpos p).
Proof.
  intros Hd. unfold round, normal. cbv zeta. cbn [cond_Zopp]. f_equal.
  destruct (Z.of_nat (digits p) - 53)%Z as [|k|k] eqn:He; cbv beta iota.
  - replace (53 - digits p)%nat with 0%nat by lia.
    change (shl p 0) with p. rewrite Z.pow_0_r. lia.
  - lia.
  - rewrite Zpos_shl.
    replace (Z.of_nat (53 - digits p)) with (Zpos k) by lia.
    rewrite Z.pow_add_r by lia.
    replace (2 * (Zpos p * 2 ^ Zpos k) + 2 ^ Zpos k)%Z
      with (2 ^ Zpos k * (2 * Zpos p + 1))%Z by lia.
    rewrite Z.div_mul_cancel_l by (try apply Z.pow_nonzero; lia).
    change (2 ^ 1)%Z with 2%Z.
    rewrite Z.mul_comm, Z.div_add_l by lia.
    change (1 / 2)%Z with 0%Z. lia.
Qed.

Lemma round_ofNat (n : nat) : safe n -> round (ofNat n) = Some (Z.of_nat n).
Proof.
  intros Hn. destruct n as [|n]; [reflexivity|].
  rewrite (@ofNat_S n Hn). unfold safe in Hn.
  rewrite round_normal by (apply digits_safe; lia).
  rewrite Zpos_P_of_succ_nat, Nat2Z.inj_succ. reflexivity.
Qed.








Lemma mul_comm (a b : number) : mul a b = mul b a.
Proof.
  unfold mul, SFmul.
  destruct a as [sa|sa| |sa ma ea], b as [sb|sb| |sb mb eb];
    try reflexivity; try (rewrite xorb_comm; reflexivity).
  rewrite xorb_comm, Pos.mul_comm, Z.add_comm. reflexivity.
Qed.

Lemma ceil_normal (p : positive) :
  (digits p <= 53)%nat -> ceil (normal false p) = Some (Zpos p).
Proof.
  intros Hd. unfold ceil, normal. cbv zeta. cbn [cond_Zopp]. f_equal.
  destruct (Z.of_nat (digits p) - 53)%Z as [|k|k] eqn:He; cbv beta iota.
  - replace (53 - digits p)%nat with 0%nat by lia.
    change (shl p 0) with p. rewrite Z.pow_0_r. lia.
  - lia.
  - rewrite Zpos_shl.
    replace (Z.of_nat (53 - digits p)) with (Zpos k) by lia.
    rewrite <- Z.mul_opp_l, Z.div_mul by (apply Z.pow_nonzero; lia).
    lia.
Qed.

Lemma floor_normal (p : positive) :
  (digits p <= 53)%nat -> floor (normal false p) = Some (Zpos p).
Proof.
  intros Hd. unfold floor, normal. cbv zeta. cbn [cond_Zopp]. f_equal.
  destruct (Z.of_nat (digits p) - 53)%Z as [|k|k] eqn:He; cbv beta iota.
  - replace (53 - digits p)%nat with 0%nat by lia.
    change (shl p 0) with p. rewrite Z.pow_0_r. lia.
  - lia.
  - rewrite Zpos_shl.
    replace (Z.of_nat (53 - digits p)) with (Zpos k) by lia.
    apply Z.div_mul, Z.pow_nonzero; lia.
Qed.

Lemma ceil_ofNat (n : nat) : safe n -> ceil (ofNat n) = Some (Z.of_nat n).
Proof.
  intros Hn. destruct n as [|n]; [reflexivity|].
  rewrite (@ofNat_S n Hn). unfold safe in Hn.
  rewrite ceil_normal by (apply digits_safe; lia).
  rewrite Zpos_P_of_succ_nat, Nat2Z.inj_succ. reflexivity.
Qed.

Lemma floor_ofNat (n : nat) : safe n -> floor (ofNat n) = Some (Z.of_nat n).
Proof.
  intros Hn. destruct n as [|n]; [reflexivity|].
  rewrite (@ofNat_S n Hn). unfold safe in Hn.
  rewrite floor_normal by (apply digits_safe; lia).
  rewrite Zpos_P_of_succ_nat, Nat2Z.inj_succ. reflexivity.
Qed.

End NumberSpec.
(* ================================================================= *)
(** ** Properties of [PolygonMask.load] *)

Module PolygonMaskSpec.

Import PolygonMask.

Section Load.

Variable MaskType : Type.
Variable MaskType_eq_dec : forall a b : MaskType, {a = b} + {a <> b}.
Variable Type_none : MaskType.
Variable Arrangement : Type.
Variables Draw IDraw Move IMove LocalSvg ILocalSvg : Type.
Variables ICoordinates ICoordinatesPartial : Type.
Variable Draw_load : Draw -> option IDraw -> Draw.
Variable Move_load : Move -> option IMove -> Move.
Variable LocalSvg_new : LocalSvg.
Variable LocalSvg_load : LocalSvg -> option ILocalSvg -> LocalSvg.
Variable deepExtend_empty : ICoordinatesPartial -> ICoordinates.

Local Abbreviation Mask :=
  (PolygonMask MaskType Arrangement Draw Move LocalSvg ICoordinates).
Local Abbreviation Data :=
  (IPolygonMask MaskType Arrangement IDraw IMove ILocalSvg
                ICoordinatesPartial).
Local Abbreviation load :=
  (load MaskType_eq_dec Type_none Draw_load Move_load LocalSvg_new
        LocalSvg_load deepExtend_empty).
Local Abbreviation is_not_none := (is_not_none MaskType_eq_dec Type_none).

Lemma is_not_none_true (t : MaskType) :
  is_not_none t = true <-> t <> Type_none.
Proof.
  unfold PolygonMask.is_not_none.
  destruct (MaskType_eq_dec t Type_none); split; congruence.
Qed.

(** What [load] leaves in each scalar field, read off field by field. *)
Lemma load_scale (this : Mask) (data : Data) :
  scale (load this (Some data)) =
  match d_scale data with Some v => v | None => scale this end.
Proof.
  unfold PolygonMask.load.
  destruct (d_position data), (d_data data) as [[?|?]|], (d_url data),
           (d_enable data), (d_type data), (d_scale data); reflexivity.
Qed.

Lemma load_type (this : Mask) (data : Data) :
  type (load this (Some data)) =
  match d_type data with Some v => v | None => type this end.
Proof.
  unfold PolygonMask.load.
  destruct (d_position data), (d_data data) as [[?|?]|], (d_url data),
           (d_enable data), (d_type data), (d_scale data); reflexivity.
Qed.

Lemma load_url (this : Mask) (data : Data) :
  url (load this (Some data)) =
  match d_url data with Some v => Some v | None => url this end.
Proof.
  unfold PolygonMask.load.
  destruct (d_position data), (d_data data) as [[?|?]|], (d_url data),
           (d_enable data), (d_type data), (d_scale data); reflexivity.
Qed.

Lemma load_enable (this : Mask) (data : Data) :
  enable (load this (Some data)) =
  match d_enable data with
  | Some v => v
  | None => is_not_none (type (load this (Some data)))
  end.
Proof.
  rewrite load_type. unfold PolygonMask.load.
  destruct (d_position data), (d_data data) as [[?|?]|], (d_url data),
           (d_enable data), (d_type data), (d_scale data); reflexivity.
Qed.

Lemma load_inline (this : Mask) (data : Data) :
  inline (load this (Some data)) =
  Inline_load (inline this)
    (Some match d_inline data with
          | Some i => i
          | None => {| i_arrangement := d_inlineArrangement data |}
          end).
Proof.
  unfold PolygonMask.load.
  destruct (d_position data), (d_data data) as [[?|?]|], (d_url data),
           (d_enable data), (d_type data), (d_scale data); reflexivity.
Qed.

(** C3, as amended.  For defined [data], [load] leaves [scale], [type]
    and [url] at their prior value when the field of [data] is
    undefined and overwrites them with the field of [data] otherwise;
    [enable] is overwritten by a defined [data.enable] and is otherwise
    not kept but set to [type !== Type.none], with the type as it is
    after the load. *)
Theorem load_scalar_fields (this : Mask) (data : Data) :
  scale (load this (Some data)) =
    match d_scale data with Some v => v | None => scale this end
  /\ type (load this (Some data)) =
    match d_type data with Some v => v | None => type this end
  /\ url (load this (Some data)) =
    match d_url data with Some v => Some v | None => url this end
  /\ enable (load this (Some data)) =
    match d_enable data with
    | Some v => v
    | None => is_not_none (type (load this (Some data)))
    end.
Proof.
  repeat split.
  - apply load_scale.
  - apply load_type.
  - apply load_url.
  - apply load_enable.
Qed.

(** C6.  Loading an input without [inline] whose deprecated
    [inlineArrangement] is [X] leaves [inline.arrangement == X]: the
    flat alias is wrapped into the input of the nested option before
    [Inline.load] is called. *)
Theorem load_deprecated_inlineArrangement
    (this : Mask) (data : Data) (X : Arrangement) :
  d_inline data = None ->
  d_inlineArrangement data = Some X ->
  arrangement (inline (load this (Some data))) = X
  /\ inlineArrangement (load this (Some data)) = X.
Proof.
  intros Hinline Halias.
  unfold inlineArrangement. rewrite load_inline, Hinline, Halias.
  split; reflexivity.
Qed.

(** C9.  When [data.enable] is undefined, [enable] becomes
    [type !== Type.none] for the type as it is after [data.type] has
    been applied: a defined type other than none gives [true]; the type
    none, given by [data] or left from before, gives [false]. *)
Theorem load_enable_follows_type (this : Mask) (data : Data) :
  d_enable data = None ->
  type (load this (Some data)) =
    match d_type data with Some t => t | None => type this end
  /\ enable (load this (Some data)) =
       is_not_none (type (load this (Some data)))
  /\ (forall t, d_type data = Some t -> t <> Type_none ->
        enable (load this (Some data)) = true)
  /\ (d_type data = Some Type_none ->
        enable (load this (Some data)) = false)
  /\ (d_type data = None -> type this = Type_none ->
        enable (load this (Some data)) = false).
Proof.
  intros Henable.
  assert (He : enable (load this (Some data)) =
               is_not_none (type (load this (Some data)))).
  { rewrite load_enable, Henable. reflexivity. }
  split; [apply load_type|]. split; [exact He|].
  rewrite He, load_type.
  repeat split.
  - intros t Ht Hne. rewrite Ht. apply is_not_none_true. exact Hne.
  - intros Ht. rewrite Ht. unfold PolygonMask.is_not_none.
    destruct (MaskType_eq_dec Type_none Type_none); congruence.
  - intros Ht Hprior. rewrite Ht, Hprior. unfold PolygonMask.is_not_none.
    destruct (MaskType_eq_dec Type_none Type_none); congruence.
Qed.

End Load.

(** C3 fails for [enable].  After [{ enable: true }] has been loaded
    into a fresh mask, [enable] is true and the type is still none;
    loading [{}], which leaves [enable] undefined, does not keep the
    value: [enable] becomes false. *)
Lemma load_enable_not_kept :
  enable (MaskSamples.load MaskSamples.fresh (Some MaskSamples.enabled))
    = true
  /\ d_enable MaskSamples.empty = None
  /\ enable
       (MaskSamples.load
          (MaskSamples.load MaskSamples.fresh (Some MaskSamples.enabled))
          (Some MaskSamples.empty))
     = false.
Proof. vm_compute. repeat split; reflexivity. Qed.

(** C6 at a sample: [{ inlineArrangement: "per-point" }] loaded into a
    fresh mask. *)
Lemma load_deprecated_inlineArrangement_witness :
  inlineArrangement
    (MaskSamples.load MaskSamples.fresh
       (Some {| d_draw := None; d_enable := None; d_inline := None;
                d_inlineArrangement := Some "per-point"%string;
                d_move := None; d_position := None; d_scale := None;
                d_type := None; d_url := None; d_data := None |}))
  = "per-point"%string.
Proof.
  apply (load_deprecated_inlineArrangement string_dec "none"%string
           (fun d _ => d) (fun m _ => m) tt (fun s _ => s)
           (fun p : unit => p) MaskSamples.fresh);
    reflexivity.
Defined.

(** C9 at a sample: [{ type: "inline" }] loaded into a fresh mask turns
    [enable] on. *)
Lemma load_enable_follows_type_witness :
  enable
    (MaskSamples.load MaskSamples.fresh
       (Some {| d_draw := None; d_enable := None; d_inline := None;
                d_inlineArrangement := None;
                d_move := None; d_position := None; d_scale := None;
                d_type := Some "inline"%string; d_url := None;
                d_data := None |}))
  = true.
Proof.
  refine (proj1 (proj2 (proj2
    (load_enable_follows_type string_dec "none"%string
       (fun d _ => d) (fun m _ => m) tt (fun s _ => s)
       (fun p : unit => p) MaskSamples.fresh _ _))) "inline"%string _ _).
  - reflexivity.
  - reflexivity.
  - discriminate.
Defined.

End PolygonMaskSpec.

(* ================================================================= *)
(** ** Properties of the container *)

Module ContainerSpec.

Import Core.

(** *** The frame loop: [play] and [pause] *)

Lemma world_eta (w : World) :
  {| this := this w; window := window w; calls := calls w |} = w.
Proof. destruct w; reflexivity. Qed.

(** A loop over the plug-ins that calls one optional hook appends the
    calls to the log and changes nothing else. *)
Lemma forEach_hooks (has : IPlugin -> bool) (hook : Hook)
    (ps : list IPlugin) (w : World) :
  forEach ps (fun plugin =>
    when (has plugin) (call (PluginCall (plugin_name plugin) hook))) w
  = (Normal tt,
     {| this := this w; window := window w;
        calls := calls w ++ hookCalls has hook ps |}).
Proof.
  revert w. induction ps as [|p ps IH]; intros w; simpl.
  - unfold ret, hookCalls. simpl. rewrite app_nil_r, world_eta. reflexivity.
  - unfold bind, hookCalls. simpl.
    destruct (has p); simpl.
    + unfold call. rewrite IH. simpl. unfold hookCalls.
      rewrite <- app_assoc. reflexivity.
    + unfold ret. rewrite IH. reflexivity.
Qed.

(** Unfold the plumbing of a method body. *)
Ltac step :=
  unfold bind, gets, deref, modify, lift, ret, now,
         requestFrame, cancelAnimation, set_this, set_window;
  simpl.

Section Frames.

Context {collaborators : Collaborators}.

(** [play] always returns; the world it leaves, written out. *)
Lemma play_run (force : option bool) (w : World) :
  play force w =
  (Normal tt,
   {| this :=
        set_drawAnimationFrame (Some (nextHandle (window w)))
          (if paused (this w) || truthy force then
             set_lastFrameTime (performance_now (window w))
               (if paused (this w) then set_paused false (this w)
                else this w)
           else this w);
      window :=
        {| frameRequests :=
             frameRequests (window w) ++ [nextHandle (window w)];
           nextHandle := S (nextHandle (window w));
           performance_now := performance_now (window w) |};
      calls :=
        if paused (this w) || truthy force then
          calls w ++ hookCalls plugin_play HPlay (plugins (this w))
        else calls w |}).
Proof.
  destruct w as [c win evs].
  unfold play. step.
  destruct (paused c) eqn:Hp; simpl.
  - rewrite forEach_hooks. reflexivity.
  - destruct (truthy force); simpl.
    + rewrite forEach_hooks. reflexivity.
    + reflexivity.
Qed.

(** What [play] leaves untouched. *)
Lemma play_frame (force : option bool) (w : World) :
  exists w',
    play force w = (Normal tt, w')
    /\ nextHandle (window w') = S (nextHandle (window w))
    /\ pageHidden (this w') = pageHidden (this w)
    /\ plugins (this w') = plugins (this w).
Proof.
  rewrite play_run. eexists. split; [reflexivity|]. simpl.
  destruct (paused (this w) || truthy force), (paused (this w));
    repeat split; reflexivity.
Qed.

(** [pause] always returns.  It cancels the request whose handle is
    stored and forgets the handle; a container that was not paused has
    the [pause] hook of its plug-ins called and becomes paused unless
    the page is hidden; one that was paused is not touched further. *)
Lemma pause_spec (w : World) :
  exists w',
    pause w = (Normal tt, w')
    /\ drawAnimationFrame (this w') = None
    /\ frameRequests (window w') =
         match drawAnimationFrame (this w) with
         | Some h =>
             filter (fun h' => negb (Nat.eqb h' h)) (frameRequests (window w))
         | None => frameRequests (window w)
         end
    /\ nextHandle (window w') = nextHandle (window w)
    /\ paused (this w') = (paused (this w) || negb (pageHidden (this w)))
    /\ pageHidden (this w') = pageHidden (this w)
    /\ plugins (this w') = plugins (this w)
    /\ calls w' =
         if paused (this w) then calls w
         else calls w ++ hookCalls plugin_pause HPause (plugins (this w)).
Proof.
  destruct w as [c win evs].
  unfold pause. step.
  destruct (drawAnimationFrame c) eqn:Hframe; step;
    destruct (paused c) eqn:Hp; simpl;
    rewrite ?forEach_hooks; simpl;
    try destruct (pageHidden c) eqn:Hh; simpl;
    eexists; (split; [reflexivity|]); simpl;
    rewrite ?Hframe, ?Hp, ?Hh; repeat split; reflexivity.
Qed.

Lemma onlyStoredRequest_length (w : World) :
  onlyStoredRequest w -> (List.length (frameRequests (window w)) <= 1)%nat.
Proof.
  unfold onlyStoredRequest.
  destruct (frameRequests (window w)) as [|h [|h' rest]]; simpl;
    intros H; [lia | lia | destruct H].
Qed.

(** After [pause] no request is left, provided the only one scheduled
    before was the stored one. *)
Lemma pause_idle (w : World) :
  onlyStoredRequest w ->
  exists w',
    pause w = (Normal tt, w')
    /\ frameRequests (window w') = []
    /\ drawAnimationFrame (this w') = None.
Proof.
  intros Hstored.
  destruct (pause_spec w) as (w' & Hrun & Hframe & Hreqs & _).
  exists w'. split; [exact Hrun|]. split; [|exact Hframe].
  rewrite Hreqs. unfold onlyStoredRequest in Hstored.
  destruct (frameRequests (window w)) as [|h [|h' rest]].
  - destruct (drawAnimationFrame (this w)); reflexivity.
  - rewrite Hstored. simpl. rewrite Nat.eqb_refl. reflexivity.
  - destruct Hstored.
Qed.

(** After [play] on an idle loop exactly the new request is scheduled,
    and it is the stored one. *)
Lemma play_idle (force : option bool) (w : World) :
  frameRequests (window w) = [] ->
  exists w',
    play force w = (Normal tt, w')
    /\ frameRequests (window w') = [nextHandle (window w)]
    /\ onlyStoredRequest w'.
Proof.
  intros Hidle.
  rewrite play_run. eexists. split; [reflexivity|].
  unfold onlyStoredRequest. simpl. rewrite Hidle. simpl.
  split; [reflexivity|].
  destruct (paused (this w) || truthy force), (paused (this w)); reflexivity.
Qed.

Lemma frameCalls_cons (c : FrameCall) (cs : list FrameCall) (w w' : World) :
  frameCall c w = (Normal tt, w') ->
  frameCalls (c :: cs) w = frameCalls cs w'.
Proof.
  intros Hrun. unfold frameCalls. simpl. unfold bind. rewrite Hrun.
  reflexivity.
Qed.

(** The invariant of a run in which no [play] follows a [play]. *)
Lemma frameCalls_onlyStoredRequest (cs : list FrameCall) :
  forall (afterPlay : bool) (w : World),
    (if afterPlay then onlyStoredRequest w
     else frameRequests (window w) = []) ->
    noPlayAfterPlay afterPlay cs = true ->
    exists w',
      frameCalls cs w = (Normal tt, w') /\ onlyStoredRequest w'.
Proof.
  induction cs as [|c cs IH]; intros afterPlay w Hinv Hcs.
  - exists w. split; [reflexivity|].
    destruct afterPlay; [exact Hinv|].
    unfold onlyStoredRequest. rewrite Hinv. exact I.
  - destruct c as [force|]; simpl in Hcs.
    + apply andb_true_iff in Hcs. destruct Hcs as [Hb Hcs].
      destruct afterPlay; [discriminate Hb|].
      destruct (play_idle force w Hinv) as (w1 & Hrun & _ & Hstored).
      rewrite (frameCalls_cons (Play force) cs w Hrun).
      apply (IH true w1 Hstored Hcs).
    + assert (Hstored : onlyStoredRequest w).
      { destruct afterPlay; [exact Hinv|].
        unfold onlyStoredRequest. rewrite Hinv. exact I. }
      destruct (pause_idle w Hstored) as (w1 & Hrun & Hidle & _).
      rewrite (frameCalls_cons Pause cs w Hrun).
      apply (IH false w1 Hidle Hcs).
Qed.

Lemma noPlayAfterPlay_firstn (k : nat) :
  forall (cs : list FrameCall) (afterPlay : bool),
    noPlayAfterPlay afterPlay cs = true ->
    noPlayAfterPlay afterPlay (firstn k cs) = true.
Proof.
  induction k as [|k IH]; intros cs afterPlay Hcs; [reflexivity|].
  destruct cs as [|[force|] cs]; simpl in *; [reflexivity| |].
  - apply andb_true_iff in Hcs. destruct Hcs as [Hb Hcs].
    rewrite Hb. simpl. apply IH. exact Hcs.
  - apply IH. exact Hcs.
Qed.

(** C10.  [play] always returns, leaves [paused] false and issues one
    new frame request, whose handle it stores.  On a container that is
    not paused, [play(true)] calls the [play] hook of every plug-in
    that has one and sets [lastFrameTime] to the current time, while
    [play()] without (a truthy) [force] calls no hook and leaves
    [lastFrameTime] alone. *)
Theorem play_spec (force : option bool) (w : World) :
  exists w',
    play force w = (Normal tt, w')
    /\ paused (this w') = false
    /\ frameRequests (window w') =
         frameRequests (window w) ++ [nextHandle (window w)]
    /\ drawAnimationFrame (this w') = Some (nextHandle (window w))
    /\ (paused (this w) = false /\ force = Some true ->
          calls w' =
            calls w ++ hookCalls plugin_play HPlay (plugins (this w))
          /\ lastFrameTime (this w') = performance_now (window w))
    /\ (paused (this w) = false /\ truthy force = false ->
          calls w' = calls w
          /\ lastFrameTime (this w') = lastFrameTime (this w)).
Proof.
  rewrite play_run. eexists. split; [reflexivity|]. simpl.
  split.
  { destruct (paused (this w)) eqn:Hp; simpl; [reflexivity|].
    destruct (truthy force); simpl; exact Hp. }
  do 2 (split; [reflexivity|]).
  split.
  - intros [Hp Hforce]. rewrite Hp, Hforce. simpl. split; reflexivity.
  - intros [Hp Hforce]. rewrite Hp, Hforce. simpl. split; reflexivity.
Qed.

(** C2, as amended.  In a sequence of [play] and [pause] calls that
    starts with no frame request scheduled and in which no [play]
    directly follows a [play], every call returns and at most one
    request is outstanding after each of them.  A [play] cancels
    nothing: issued at any point, it adds its request to the ones
    already scheduled. *)
Theorem frameCalls_one_request
    (cs : list FrameCall) (k : nat) (w : World) :
  frameRequests (window w) = [] ->
  noPlayAfterPlay false cs = true ->
  exists w',
    frameCalls (firstn k cs) w = (Normal tt, w')
    /\ (List.length (frameRequests (window w')) <= 1)%nat
    /\ forall force, exists w'',
         play force w' = (Normal tt, w'')
         /\ frameRequests (window w'') =
              frameRequests (window w') ++ [nextHandle (window w')].
Proof.
  intros Hidle Hcs.
  destruct (frameCalls_onlyStoredRequest (firstn k cs) false w Hidle
              (noPlayAfterPlay_firstn k cs false Hcs))
    as (w' & Hrun & Hstored).
  exists w'. split; [exact Hrun|].
  split; [apply onlyStoredRequest_length; exact Hstored|].
  intros force. rewrite play_run. eexists. split; reflexivity.
Qed.

(** C7, as amended.  [pause] cancels the frame request whose handle is
    stored, so that none is left when that was the only one scheduled.
    On a container that is not yet paused it calls the [pause] hook of
    every plug-in that has one and sets [paused] exactly when the page
    is not hidden; on a paused container it calls no hook.  [play]
    right after it leaves the animation status true and exactly one
    frame request pending. *)
Theorem pause_then_play (w : World) :
  onlyStoredRequest w ->
  exists w1 w2,
    pause w = (Normal tt, w1)
    /\ play None w1 = (Normal tt, w2)
    /\ frameRequests (window w1) = []
    /\ drawAnimationFrame (this w1) = None
    /\ calls w1 =
         (if paused (this w) then calls w
          else calls w ++ hookCalls plugin_pause HPause (plugins (this w)))
    /\ paused (this w1) = (paused (this w) || negb (pageHidden (this w)))
    /\ getAnimationStatus (this w2) = true
    /\ frameRequests (window w2) = [nextHandle (window w)]
    /\ drawAnimationFrame (this w2) = Some (nextHandle (window w)).
Proof.
  intros Hstored.
  destruct (pause_spec w)
    as (w1 & Hrun & _ & _ & Hnext & Hpaused & _ & _ & Hcalls).
  destruct (pause_idle w Hstored) as (w1' & Hrun' & Hidle & Hframe).
  assert (w1' = w1) by congruence. subst w1'.
  exists w1. eexists.
  split; [exact Hrun|]. split; [apply play_run|].
  split; [exact Hidle|]. split; [exact Hframe|].
  split; [exact Hcalls|]. split; [exact Hpaused|].
  unfold getAnimationStatus. simpl. rewrite Hidle, Hnext.
  split; [|split; reflexivity].
  destruct (paused (this w1)) eqn:Hp; simpl; [reflexivity|].
  rewrite Hp. reflexivity.
Qed.

End Frames.


(** *** The life cycle: [start], [stop] and [destroy] *)

(** A loop whose body only calls an optional hook appends the calls to
    the log. *)
Lemma forEach_calls {A : Type} (has : A -> bool) (event : A -> Event)
    (xs : list A) (w : World) :
  forEach xs (fun x => when (has x) (call (event x))) w
  = (Normal tt,
     {| this := this w; window := window w;
        calls := calls w ++ map event (filter has xs) |}).
Proof.
  revert w. induction xs as [|x xs IH]; intros w; simpl.
  - unfold ret. rewrite app_nil_r, world_eta. reflexivity.
  - unfold bind. destruct (has x); simpl.
    + unfold call. rewrite IH. simpl. rewrite <- app_assoc. reflexivity.
    + unfold ret. rewrite IH. reflexivity.
Qed.

(** The loop of [start] that pushes the available plug-ins. *)
Lemma forEach_push_plugins (available : list IPlugin) (w : World) :
  forEach available (fun plugin =>
    modify (fun c => set_plugins (plugins c ++ [plugin]) c)) w
  = (Normal tt,
     set_this (set_plugins (plugins (this w) ++ available) (this w)) w).
Proof.
  revert w. induction available as [|p ps IH]; intros w; simpl.
  - unfold ret, set_this. rewrite app_nil_r.
    destruct w as [c win evs]. destruct c. reflexivity.
  - unfold bind, modify. rewrite IH. unfold set_this. simpl.
    rewrite <- app_assoc. reflexivity.
Qed.

(** Case analysis on the next field the body looks at. *)
Ltac split_field :=
  match goal with
  | |- context [match ?f with Some _ => _ | None => _ end] =>
      is_var f; destruct f
  | |- context [if ?b then _ else _] => is_var b; destruct b
  | |- context [if negb ?b then _ else _] => is_var b; destruct b
  | |- context [when ?b _] => is_var b; destruct b
  | |- context [when (negb ?b) _] => is_var b; destruct b
  end.

Section LifeCycle.

Context {collaborators : Collaborators}.

(** [stop] returns at once on a container that is not started. *)
Lemma stop_not_started (w : World) :
  started (this w) = false -> stop w = (Normal tt, w).
Proof.
  intros Hstarted. unfold stop, bind, gets. rewrite Hstarted. reflexivity.
Qed.

(** [stop] on a container with all its subordinates returns and leaves
    it stopped, with the subordinates in place. *)
Lemma stop_alive (w : World) :
  alive (this w) ->
  exists w',
    stop w = (Normal tt, w')
    /\ started (this w') = false
    /\ destroyed (this w') = destroyed (this w)
    /\ alive (this w').
Proof.
  destruct w as [c win evs]. destruct c. unfold alive. simpl.
  intros (Ho & Hr & Hc & Hp & He).
  destruct options0; [|congruence]. destruct retina0; [|congruence].
  destruct canvas0; [|congruence]. destruct particles0; [|congruence].
  destruct eventListeners0; [|congruence].
  unfold stop. 
  destruct started0; step.
  2:{ eexists. split; [reflexivity|]. simpl. repeat split; congruence. }
  unfold pause. step.
  destruct drawAnimationFrame0, paused0, pageHidden0; step;
    rewrite ?forEach_hooks; simpl; rewrite ?forEach_hooks; simpl;
    eexists; (split; [reflexivity|]); simpl; repeat split; congruence.
Qed.

(** The first [destroy]: on a container with all its subordinates it
    returns, and the subordinates are released. *)
Lemma destroy_alive (w : World) :
  alive (this w) ->
  exists w1,
    destroy w = (Normal tt, w1)
    /\ destroyed (this w1) = true
    /\ started (this w1) = false
    /\ retina (this w1) = None
    /\ eventListeners (this w1) = None.
Proof.
  intros Halive.
  destruct (stop_alive w Halive) as (w' & Hstop & Hstarted & _ & Halive').
  unfold destroy. unfold bind at 1. rewrite Hstop.
  destruct w' as [c win evs]. destruct c. unfold alive in Halive'.
  simpl in *. destruct Halive' as (Ho & Hr & Hc & Hp & He).
  destruct retina0; [|congruence]. destruct canvas0; [|congruence].
  step.
  rewrite (forEach_calls (fun entry => drawer_destroy (snd entry))
                         (fun entry => DrawerDestroyCall (fst entry))).
  simpl. eexists. split; [reflexivity|]. simpl.
  repeat split; congruence.
Qed.

(** [destroy] on a stopped container whose retina has been released
    throws on [this.retina.reset()] and changes nothing. *)
Lemma destroy_released (w : World) :
  started (this w) = false ->
  retina (this w) = None ->
  destroy w = (Throw (TypeError "retina"), w).
Proof.
  intros Hstarted Hretina.
  unfold destroy. unfold bind at 1.
  rewrite (stop_not_started w Hstarted).
  unfold bind, deref. rewrite Hretina. reflexivity.
Qed.

(** [start] on a stopped container whose event listeners have been
    released throws before it reaches [init] and [play]: either the
    plug-in registry throws, or [this.eventListeners.addListeners()]
    does.  No frame is requested, no hook is called, and [paused] and
    [destroyed] are as before. *)
Lemma start_released (w : World) :
  started (this w) = false ->
  eventListeners (this w) = None ->
  exists e w2,
    start w = (Throw e, w2)
    /\ destroyed (this w2) = destroyed (this w)
    /\ paused (this w2) = paused (this w)
    /\ drawAnimationFrame (this w2) = drawAnimationFrame (this w)
    /\ window w2 = window w
    /\ calls w2 = calls w.
Proof.
  intros Hstarted Hlisteners.
  unfold start. unfold bind at 1. unfold gets at 1. rewrite Hstarted.
  unfold bind at 1. unfold gets at 1.
  unfold bind at 1. unfold lift at 1.
  destruct (Plugins_getAvailablePlugins (this w)) as [available|e].
  - unfold bind at 1. rewrite forEach_push_plugins.
    step. rewrite Hlisteners.
    eexists. eexists. split; [reflexivity|]. simpl.
    repeat split; reflexivity.
  - exists e, w. repeat split; reflexivity.
Qed.

(** The flags after [destroy], on any container and whether the call
    returns or throws: [started] is false; [destroyed] is true if it was
    already, and if the call returned. *)
Lemma destroy_flags (w : World) :
  started (this (snd (destroy w))) = false
  /\ (destroyed (this w) = true ->
      destroyed (this (snd (destroy w))) = true)
  /\ (fst (destroy w) = Normal tt ->
      destroyed (this (snd (destroy w))) = true).
Proof.
  destruct w as [c win evs]. destruct c.
  unfold destroy, stop, pause. step.
  repeat (first
            [ split_field
            | rewrite forEach_hooks
            | rewrite (forEach_calls
                         (fun entry => drawer_destroy (snd entry))
                         (fun entry => DrawerDestroyCall (fst entry))) ];
          step);
    (split; [reflexivity|split; intros H];
     first [exact H | reflexivity | discriminate H]).
Qed.

(** C1, as amended.  [destroy] is terminal but not idempotent.  On a
    container that still has its subordinates the first [destroy]
    returns and leaves [destroyed == true] and [started == false].  A
    second [destroy] is not a silent no-op: it throws a [TypeError] on
    the released retina, and it changes nothing, so the two flags stay
    as they are.  A [start] after that throws before it reaches
    [play]: no frame is requested, [paused] is not changed and
    [destroyed] stays true.  And on any container at all, after a
    [destroy] that returned or threw, [started] is false, and
    [destroyed] is true if it was before or if the call returned. *)
Theorem destroy_terminal (w : World) :
  alive (this w) ->
  (exists w1,
     destroy w = (Normal tt, w1)
     /\ destroyed (this w1) = true
     /\ started (this w1) = false
     /\ destroy w1 = (Throw (TypeError "retina"), w1)
     /\ exists e w2,
          start w1 = (Throw e, w2)
          /\ destroyed (this w2) = true
          /\ paused (this w2) = paused (this w1)
          /\ drawAnimationFrame (this w2) = drawAnimationFrame (this w1)
          /\ frameRequests (window w2) = frameRequests (window w1))
  /\ (forall w',
        started (this (snd (destroy w'))) = false
        /\ (destroyed (this w') = true \/ fst (destroy w') = Normal tt ->
            destroyed (this (snd (destroy w'))) = true)).
Proof.
  intros Halive. split.
  - destruct (destroy_alive w Halive)
      as (w1 & Hrun & Hdestroyed & Hstarted & Hretina & Hlisteners).
    exists w1. split; [exact Hrun|]. split; [exact Hdestroyed|].
    split; [exact Hstarted|].
    split; [apply destroy_released; assumption|].
    destruct (start_released w1 Hstarted Hlisteners)
      as (e & w2 & Hstart & Hd & Hp & Hf & Hw & _).
    exists e, w2. split; [exact Hstart|].
    rewrite Hd, Hw. repeat split; assumption.
  - intros w'. destruct (destroy_flags w') as (Hstarted & Hwas & Hret).
    split; [exact Hstarted|]. intros [H | H]; [apply Hwas | apply Hret];
      exact H.
Qed.

(** C8.  [start] on a started container and [stop] on a container that
    is not started return at once: no error, and the whole world,
    container included, is as before. *)
Theorem start_stop_reentrant (w : World) :
  (started (this w) = true -> start w = (Normal tt, w))
  /\ (started (this w) = false -> stop w = (Normal tt, w)).
Proof.
  split; intros Hstarted.
  - unfold start, bind, gets. rewrite Hstarted. reflexivity.
  - unfold stop, bind, gets. rewrite Hstarted. reflexivity.
Qed.

End LifeCycle.


(** *** Density: [densityAutoParticles] *)

(** The number computed by the body is the target of the spec. *)
Lemma particlesNumber_densityTarget (el : CanvasElement) (rt : Retina)
    (num : ParticlesNumber) :
  particlesNumber el rt num =
  densityTarget (width el) (height el) (isRetina rt) (pixelRatio rt)
                (number_value num) (density_area (number_density num)).
Proof.
  unfold particlesNumber, densityTarget.
  rewrite (NumberSpec.mul_comm (pixelRatio rt) (Number.ofZ 2)).
  reflexivity.
Qed.



Section Density.

Context {collaborators : Collaborators}.

(** The body of [densityAutoParticles] once every subordinate is there
    and the density feature is on. *)
Lemma densityAutoParticles_enabled
    (w : World) (cv : Canvas) (el : CanvasElement) (o : Options)
    (rt : Retina) (ps : Particles) :
  canvas (this w) = Some cv ->
  element cv = Some el ->
  options (this w) = Some o ->
  density_enable (number_density (particles_number (options_particles o)))
    = true ->
  retina (this w) = Some rt ->
  particles (this w) = Some ps ->
  densityAutoParticles w =
    let target :=
      particlesNumber el rt (particles_number (options_particles o)) in
    let n := Number.ofNat (count ps) in
    if Number.lt n target then
      (Normal tt,
       set_this (set_particles
                   (Some (Particles_push
                            (Number.abs (Number.sub target n)) ps))
                   (this w)) w)
    else if Number.lt target n then
      (Normal tt,
       set_this (set_particles
                   (Some (Particles_removeQuantity (Number.sub n target) ps))
                   (this w)) w)
    else (Normal tt, w).
Proof.
  intros Hcv Hel Ho Hen Hrt Hps.
  unfold densityAutoParticles, bind, deref.
  rewrite Hcv, Hel. simpl. rewrite Ho, Hen. simpl. rewrite Hrt, Hps.
  destruct (Number.lt _ _); [reflexivity|].
  destruct (Number.lt _ _); reflexivity.
Qed.




(** C5, as amended.  When the target is a whole number that a double
    holds exactly, and so is the count, one call brings the count to
    the target, whichever side it started from, and a second call with
    the same inputs changes nothing at all; with an area of 1000 on a
    plain display that count is [round(N * 1000 / D)]. *)
Theorem densityAutoParticles_whole_target
    (w : World) (cv : Canvas) (el : CanvasElement) (o : Options)
    (rt : Retina) (ps : Particles) :
  ParticlesContract collaborators ->
  canvas (this w) = Some cv ->
  element cv = Some el ->
  options (this w) = Some o ->
  density_enable (number_density (particles_number (options_particles o)))
    = true ->
  retina (this w) = Some rt ->
  particles (this w) = Some ps ->
  Number.safe (count ps) ->
  let target :=
    densityTarget (width el) (height el) (isRetina rt) (pixelRatio rt)
      (number_value (particles_number (options_particles o)))
      (density_area (number_density (particles_number (options_particles o))))
  in
  forall n : nat,
    Number.safe n ->
    target = Number.ofNat n ->
    exists w1 ps1,
      densityAutoParticles w = (Normal tt, w1)
      /\ particles (this w1) = Some ps1
      /\ count ps1 = n
      /\ densityAutoParticles w1 = (Normal tt, w1)
      /\ (Number.div (Number.mul (width el) (height el)) (Number.ofZ 1000)
          = Number.ofZ 1000 ->
          isRetina rt = false ->
          Number.round
            (Number.div
               (Number.mul
                  (number_value (particles_number (options_particles o)))
                  (Number.ofZ 1000))
               (density_area
                  (number_density (particles_number (options_particles o)))))
          = Some (Z.of_nat (count ps1))).
Proof.
  intros Hcontract Hcv Hel Ho Hon Hrt Hps Hsafe target n Hn Hwhole.
  assert (Hround :
    forall ps1, count ps1 = n ->
      Number.div (Number.mul (width el) (height el)) (Number.ofZ 1000)
      = Number.ofZ 1000 ->
      isRetina rt = false ->
      Number.round
        (Number.div
           (Number.mul
              (number_value (particles_number (options_particles o)))
              (Number.ofZ 1000))
           (density_area
              (number_density (particles_number (options_particles o)))))
      = Some (Z.of_nat (count ps1))).
  { intros ps1 Hcount Harea Hplain. rewrite Hcount.
    rewrite <- (NumberSpec.round_ofNat Hn), <- Hwhole.
    unfold target, densityTarget. rewrite Hplain. cbv zeta.
    rewrite Harea, NumberSpec.mul_comm. reflexivity. }
  assert (Hstay :
    forall ps1, count ps1 = n ->
      densityAutoParticles (set_this (set_particles (Some ps1) (this w)) w)
      = (Normal tt, set_this (set_particles (Some ps1) (this w)) w)).
  { intros ps1 Hcount.
    rewrite (@densityAutoParticles_enabled
               (set_this (set_particles (Some ps1) (this w)) w)
               cv el o rt ps1 Hcv Hel Ho Hon Hrt eq_refl).
    rewrite particlesNumber_densityTarget. fold target.
    cbv zeta. rewrite Hcount, Hwhole, NumberSpec.lt_irrefl. reflexivity. }
  rewrite (densityAutoParticles_enabled w Hcv Hel Ho Hon Hrt Hps).
  rewrite particlesNumber_densityTarget. fold target. cbv zeta.
  rewrite Hwhole, !NumberSpec.lt_ofNat by assumption.
  destruct (Nat.ltb_spec (count ps) n) as [Hlt|Hge].
  - (* count < target: push *)
    rewrite NumberSpec.sub_ofNat, NumberSpec.abs_ofNat by assumption.
    assert (Hdiff : Number.safe (n - count ps)).
    { unfold Number.safe in *. lia. }
    assert (Hcount : count (Particles_push (Number.ofNat (n - count ps)) ps)
                     = n).
    { rewrite (push_whole Hcontract ps Hdiff). lia. }
    eexists. eexists. split; [reflexivity|].
    split; [reflexivity|]. split; [exact Hcount|].
    split; [exact (Hstay _ Hcount)|exact (Hround _ Hcount)].
  - destruct (Nat.ltb_spec n (count ps)) as [Hgt|Hle].
    + (* count > target: remove *)
      rewrite NumberSpec.sub_ofNat by assumption.
      assert (Hdiff : Number.safe (count ps - n)).
      { unfold Number.safe in *. lia. }
      assert (Hcount :
        count (Particles_removeQuantity (Number.ofNat (count ps - n)) ps)
        = n).
      { rewrite (removeQuantity_whole Hcontract ps Hdiff) by lia. lia. }
      eexists. eexists. split; [reflexivity|].
      split; [reflexivity|]. split; [exact Hcount|].
      split; [exact (Hstay _ Hcount)|exact (Hround _ Hcount)].
    + (* count = target *)
      assert (Hcount : count ps = n) by lia.
      exists w, ps. split; [reflexivity|]. split; [exact Hps|].
      split; [exact Hcount|]. split; [|exact (Hround _ Hcount)].
      rewrite (densityAutoParticles_enabled w Hcv Hel Ho Hon Hrt Hps).
      rewrite particlesNumber_densityTarget. fold target. cbv zeta.
      rewrite Hcount, Hwhole, NumberSpec.lt_irrefl. reflexivity.
Qed.

End Density.



(** *** The sample objects *)

Import Samples.

#[local] Existing Instance Samples.collaborators.

(** The sample collection keeps the contract of the spec. *)
Lemma samples_contract : ParticlesContract Samples.collaborators.
Proof.
  constructor; simpl.
  - intros n ps Hn. rewrite (NumberSpec.ceil_ofNat Hn).
    simpl. rewrite Nat2Z.id. reflexivity.
  - intros n ps Hn _. rewrite (NumberSpec.floor_ofNat Hn).
    simpl. rewrite Nat2Z.id. reflexivity.
Qed.

(** [start] on a container just constructed returns, and the container
    is started and playing with one frame requested. *)
Example start_fresh :
  fst (start (fresh 1 800 0)) = Normal tt
  /\ started (this (after start (fresh 1 800 0))) = true
  /\ getAnimationStatus (this (after start (fresh 1 800 0))) = true
  /\ frameRequests (window (after start (fresh 1 800 0))) = [1%nat]
  /\ calls (after start (fresh 1 800 0)) = [AddListeners].
Proof. vm_compute. repeat split; reflexivity. Qed.

(** C1 fails: on a container that was started and then destroyed, a
    second [destroy] does not return silently; it throws a [TypeError],
    as [this.retina] is gone when [this.retina.reset()] is reached. *)
Lemma destroy_twice_throws :
  fst (destroy (after start (fresh 1 800 0))) = Normal tt
  /\ fst (destroy (after destroy (after start (fresh 1 800 0))))
     = Throw (TypeError "retina").
Proof. vm_compute. split; reflexivity. Qed.

(** C2 fails: two [play] calls in a row on a fresh container leave two
    frame requests outstanding; the second call has not cancelled or
    replaced the first request. *)
Lemma play_twice_two_requests :
  frameRequests
    (window (after (frameCalls [Play None; Play None]) (fresh 1 800 0)))
  = [1%nat; 2%nat].
Proof. vm_compute. reflexivity. Qed.

(** C7 fails where a request has leaked: on the container left by two
    [play] calls, whose page is not hidden, [pause] followed by [play]
    leaves two frame requests pending, not one; [pause] cancelled the
    stored handle 2 and could not reach request 1. *)
Lemma pause_play_two_requests :
  pageHidden
    (this (after (frameCalls [Play None; Play None]) (fresh 1 800 0)))
  = false
  /\ frameRequests
       (window
          (after (frameCalls [Pause; Play None])
             (after (frameCalls [Play None; Play None]) (fresh 1 800 0))))
     = [1%nat; 3%nat].
Proof. vm_compute. split; reflexivity. Qed.


(** C5 fails for a target that is not whole, in both halves.  With an
    area of 1000, [N = 1] and [D = 800] the target is 1.25: from five
    particles one call asks for 3.75 to be removed and leaves two, and a
    second call leaves two again, while [round(N * 1000 / D)] is 1.
    On a canvas of 110 by 10 with 50 particles per density area of 5
    the target comes out as [11 + 2 ^ -49]: from a thousand particles
    one call computes [1000 - target], which is 989 in doubles, and
    leaves eleven; the second call, on the same inputs, finds eleven
    below the target and pushes one more.  With an area of 1000,
    [N = 1] and [D = 10 ^ 20] the target is [10 ^ -17]: from no particle
    one call pushes one; the second computes [1 - 10 ^ -17], which is 1
    in doubles, and removes that particle again; the third pushes it
    back; [round(N * 1000 / D)] is 0. *)
Lemma densityAutoParticles_not_stable :
  (option_map count
     (particles (this (after densityAutoParticles (fresh 1 800 5))))
   = Some 2%nat
   /\ option_map count
        (particles
           (this (after densityAutoParticles
                    (after densityAutoParticles (fresh 1 800 5)))))
      = Some 2%nat
   /\ Number.round
        (Number.div (Number.mul (Number.ofZ 1) (Number.ofZ 1000))
                    (Number.ofZ 800))
      = Some 1%Z)
  /\ (option_map count
        (particles
           (this (after densityAutoParticles
                    (freshOn (canvasOf 110 10) 50 5 1000))))
      = Some 11%nat
      /\ option_map count
           (particles
              (this (after densityAutoParticles
                       (after densityAutoParticles
                          (freshOn (canvasOf 110 10) 50 5 1000)))))
         = Some 12%nat)
  /\ (option_map count
        (particles
           (this (after densityAutoParticles (fresh 1 (10 ^ 20) 0))))
      = Some 1%nat
      /\ option_map count
           (particles
              (this (after densityAutoParticles
                       (after densityAutoParticles
                          (fresh 1 (10 ^ 20) 0)))))
         = Some 0%nat
      /\ option_map count
           (particles
              (this (after densityAutoParticles
                       (after densityAutoParticles
                          (after densityAutoParticles
                             (fresh 1 (10 ^ 20) 0))))))
         = Some 1%nat
      /\ Number.round
           (Number.div (Number.mul (Number.ofZ 1) (Number.ofZ 1000))
                       (Number.ofZ (10 ^ 20)))
         = Some 0%Z).
Proof. vm_compute. repeat split; reflexivity. Qed.

(** Rounding shows in the target: on a canvas of 110 by 10 with 50
    particles per density area of 5 the quotients are not exact, the
    target comes out just above 11, and a call on eleven particles
    pushes again. *)
Example densityAutoParticles_rounded_target :
  densityTarget (Number.ofZ 110) (Number.ofZ 10) false (Number.ofZ 1)
                (Number.ofZ 50) (Number.ofZ 5)
  = S754_finite false 6192449487634433 (-49)
  /\ Number.ofZ 11 = S754_finite false 6192449487634432 (-49)
  /\ option_map count
       (particles
          (this (after densityAutoParticles
                   (freshOn (canvasOf 110 10) 50 5 11))))
     = Some 12%nat.
Proof. vm_compute. repeat split; reflexivity. Qed.

Lemma alive_fresh (n d : Z) (k : nat) : alive (this (fresh n d k)).
Proof. unfold alive. simpl. repeat split; discriminate. Qed.

(** C1 at a sample: a fresh container is destroyed, destroyed again and
    started. *)
Lemma destroy_terminal_witness :
  alive (this (fresh 1 800 0))
  /\ exists w1,
       destroy (fresh 1 800 0) = (Normal tt, w1)
       /\ destroyed (this w1) = true
       /\ started (this w1) = false
       /\ destroy w1 = (Throw (TypeError "retina"), w1).
Proof.
  split; [apply alive_fresh|].
  destruct (destroy_terminal (fresh 1 800 0) (alive_fresh 1 800 0))
    as ((w1 & Hrun & Hdestroyed & Hstarted & Hagain & _) & _).
  exists w1. repeat split; assumption.
Defined.

(** C2 at a sample: play, pause, play on a fresh container. *)
Lemma frameCalls_one_request_witness :
  exists w',
    frameCalls [Play None; Pause; Play (Some true)] (fresh 1 800 0)
      = (Normal tt, w')
    /\ (List.length (frameRequests (window w')) <= 1)%nat.
Proof.
  destruct (frameCalls_one_request [Play None; Pause; Play (Some true)] 3
              (fresh 1 800 0) eq_refl eq_refl)
    as (w' & Hrun & Hone & _).
  exists w'. split; assumption.
Defined.

(** C7 at a sample: the playing container is paused and resumed. *)
Lemma pause_then_play_witness :
  onlyStoredRequest playing
  /\ exists w1 w2,
       pause playing = (Normal tt, w1)
       /\ play None w1 = (Normal tt, w2)
       /\ calls w1 = [PluginCall "mask" HPlay; PluginCall "mask" HPause]
       /\ paused (this w1) = true
       /\ getAnimationStatus (this w2) = true
       /\ frameRequests (window w2) = [2%nat].
Proof.
  assert (Hstored : onlyStoredRequest playing) by reflexivity.
  split; [exact Hstored|].
  destruct (pause_then_play playing Hstored)
    as (w1 & w2 & Hpause & Hplay & _ & _ & Hcalls & Hpaused & Hstatus
        & Hreqs & _).
  exists w1, w2. repeat split; assumption.
Defined.

(** C8 at a sample: [start] on the started container, [stop] on the
    fresh one. *)
Lemma start_stop_reentrant_witness :
  start (after start (fresh 1 800 0))
    = (Normal tt, after start (fresh 1 800 0))
  /\ stop (fresh 1 800 0) = (Normal tt, fresh 1 800 0).
Proof.
  split.
  - apply (proj1 (start_stop_reentrant (after start (fresh 1 800 0)))).
    reflexivity.
  - apply (proj2 (start_stop_reentrant (fresh 1 800 0))). reflexivity.
Defined.


(** C5 at a sample: area 1000, four particles per 800: the target is the
    whole number 5, reached in one call and kept by the next. *)
Lemma densityAutoParticles_whole_target_witness :
  exists w1 ps1,
    densityAutoParticles (fresh 4 800 0) = (Normal tt, w1)
    /\ particles (this w1) = Some ps1
    /\ count ps1 = 5%nat
    /\ densityAutoParticles w1 = (Normal tt, w1)
    /\ Number.round
         (Number.div (Number.mul (Number.ofZ 4) (Number.ofZ 1000))
                     (Number.ofZ 800))
       = Some (Z.of_nat (count ps1)).
Proof.
  assert (Hsafe0 : Number.safe 0) by (vm_compute; reflexivity).
  assert (Hsafe5 : Number.safe 5) by (vm_compute; reflexivity).
  destruct (@densityAutoParticles_whole_target Samples.collaborators
              (fresh 4 800 0) canvas1000
              {| width := Number.ofZ 1000; height := Number.ofZ 1000 |}
              (options (Number.ofZ 4) (Number.ofZ 800)) plainRetina
              {| count := 0; lineLinkedColor := None |}
              samples_contract eq_refl eq_refl eq_refl eq_refl eq_refl
              eq_refl Hsafe0 5%nat Hsafe5)
    as (w1 & ps1 & Hrun & Hps & Hcount & Hstay & Hround).
  - vm_compute. reflexivity.
  - exists w1, ps1. repeat split; try assumption.
    apply Hround; vm_compute; reflexivity.
Defined.

End ContainerSpec.
(* ================================================================= *)
(** ** Further properties of the container *)

Module ContainerMore.

Import Core CoreMore ContainerSpec.

(** *** The frame loop *)



(** [pause] when nothing is stored and the container is paused: nothing
    happens. *)
Lemma pause_noop (w : World) :
  drawAnimationFrame (this w) = None ->
  paused (this w) = true ->
  pause w = (Normal tt, w).
Proof.
  intros Hframe Hpaused. destruct w as [c win evs]. simpl in *.
  unfold pause. step. rewrite Hframe. step. rewrite Hpaused. reflexivity.
Qed.





Lemma Forall_lt_filter (f : nat -> bool) (n : nat) (l : list nat) :
  Forall (fun h => (h < n)%nat) l ->
  Forall (fun h => (h < n)%nat) (filter f l).
Proof.
  intros Hall. apply Forall_forall. intros h Hin.
  apply filter_In in Hin. destruct Hin as [Hin _].
  rewrite Forall_forall in Hall. apply Hall. exact Hin.
Qed.

Lemma issuedHandles_play (force : option bool) (w : World) :
  issuedHandles w -> issuedHandles (snd (play force w)).
Proof.
  unfold issuedHandles. intros (Hall & Hnodup & Hstored).
  rewrite play_run. simpl. split; [|split].
  - apply Forall_app. split.
    + apply (Forall_impl _ (P := fun h => (h < nextHandle (window w))%nat));
        [intros h Hh; lia | exact Hall].
    + constructor; [lia | constructor].
  - apply NoDup_app; [exact Hnodup | repeat constructor; intros [] | ].
    intros h Hin [Heq | []]. subst h.
    rewrite Forall_forall in Hall. apply Hall in Hin. lia.
  - intros h Heq. injection Heq as <-. lia.
Qed.

Lemma issuedHandles_pause (w : World) :
  issuedHandles w -> issuedHandles (snd (pause w)).
Proof.
  unfold issuedHandles. intros (Hall & Hnodup & Hstored).
  destruct (pause_spec w) as (w' & Hrun & Hframe & Hreqs & Hnext & _).
  rewrite Hrun. simpl. rewrite Hreqs, Hnext, Hframe.
  split; [|split].
  - destruct (drawAnimationFrame (this w));
      [apply Forall_lt_filter|]; exact Hall.
  - destruct (drawAnimationFrame (this w));
      [apply NoDup_filter|]; exact Hnodup.
  - intros h Heq. discriminate Heq.
Qed.

(** X2.  Handles are never reused.  If every scheduled request and the
    stored handle were handed out before and no request is scheduled
    twice, the same holds after any run of [play] and [pause], and the
    next handle has moved on by exactly the number of [play] calls:
    each [play] takes one new handle and [pause] takes none. *)
Theorem frameCalls_issuedHandles (cs : list FrameCall) (w : World) :
  issuedHandles w ->
  exists w',
    frameCalls cs w = (Normal tt, w')
    /\ issuedHandles w'
    /\ nextHandle (window w') = (nextHandle (window w) + plays cs)%nat.
Proof.
  revert w. induction cs as [|c cs IH]; intros w Hinv.
  - exists w. split; [reflexivity|]. split; [exact Hinv|]. simpl. lia.
  - destruct c as [force|].
    + assert (Hrun : frameCall (Play force) w
                     = (Normal tt, snd (play force w))).
      { simpl. rewrite play_run. reflexivity. }
      destruct (IH _ (issuedHandles_play force Hinv))
        as (w' & Hrest & Hinv' & Hnext).
      exists w'. rewrite (frameCalls_cons (Play force) cs w Hrun).
      split; [exact Hrest|]. split; [exact Hinv'|].
      rewrite Hnext, play_run. simpl. lia.
    + destruct (pause_spec w) as (w1 & Hrun & _ & _ & Hnext1 & _).
      pose proof (issuedHandles_pause Hinv) as Hinv1.
      rewrite Hrun in Hinv1. simpl in Hinv1.
      destruct (IH w1 Hinv1) as (w' & Hrest & Hinv' & Hnext).
      exists w'. rewrite (frameCalls_cons Pause cs w Hrun).
      split; [exact Hrest|]. split; [exact Hinv'|].
      rewrite Hnext, Hnext1. simpl. lia.
Qed.

(** X3.  On a page that is not hidden [pause] is idempotent: a second
    [pause] right after the first returns and changes nothing at all (no
    cancellation, no plug-in hook, no flag). *)
Theorem pause_twice (w : World) :
  pageHidden (this w) = false ->
  exists w1,
    pause w = (Normal tt, w1)
    /\ paused (this w1) = true
    /\ pause w1 = (Normal tt, w1).
Proof.
  intros Hshown.
  destruct (pause_spec w) as (w1 & Hrun & Hframe & _ & _ & Hpaused & _).
  assert (Hp : paused (this w1) = true).
  { rewrite Hpaused, Hshown. apply orb_true_r. }
  exists w1. split; [exact Hrun|]. split; [exact Hp|].
  apply pause_noop; assumption.
Qed.

(** X4.  While the page is hidden [pause] cannot pause a playing
    container: it cancels the stored request and calls the [pause]
    hooks, but [paused] stays false and the animation status stays
    true; so a second [pause] calls every [pause] hook again. *)
Theorem pause_hidden (w : World) :
  pageHidden (this w) = true ->
  paused (this w) = false ->
  exists w1 w2,
    pause w = (Normal tt, w1)
    /\ getAnimationStatus (this w1) = true
    /\ drawAnimationFrame (this w1) = None
    /\ calls w1 = calls w ++ hookCalls plugin_pause HPause (plugins (this w))
    /\ pause w1 = (Normal tt, w2)
    /\ getAnimationStatus (this w2) = true
    /\ calls w2 =
         calls w1 ++ hookCalls plugin_pause HPause (plugins (this w))
    /\ frameRequests (window w2) = frameRequests (window w1).
Proof.
  intros Hhidden Hplaying.
  destruct (pause_spec w)
    as (w1 & Hrun & Hframe & _ & _ & Hpaused & Hhidden1 & Hplugins & Hcalls).
  rewrite Hplaying, Hhidden in Hpaused. simpl in Hpaused.
  rewrite Hplaying in Hcalls.
  destruct (pause_spec w1)
    as (w2 & Hrun2 & _ & Hreqs2 & _ & Hpaused2 & _ & _ & Hcalls2).
  rewrite Hpaused, Hhidden1, Hhidden in Hpaused2. simpl in Hpaused2.
  rewrite Hpaused, Hplugins in Hcalls2. rewrite Hframe in Hreqs2.
  exists w1, w2. unfold getAnimationStatus.
  rewrite Hpaused, Hpaused2. repeat split; assumption.
Qed.

Lemma filter_neq_fresh (h : nat) (l : list nat) :
  Forall (fun h' => (h' < h)%nat) l ->
  filter (fun h' => negb (Nat.eqb h' h)) (l ++ [h]) = l.
Proof.
  intros Hall. rewrite filter_app. simpl. rewrite Nat.eqb_refl. simpl.
  rewrite app_nil_r. induction Hall as [|x l Hx Hall IH]; [reflexivity|].
  simpl. destruct (Nat.eqb x h) eqn:Heq.
  - apply Nat.eqb_eq in Heq. lia.
  - simpl. rewrite IH. reflexivity.
Qed.

(** X5.  [play] followed at once by [pause] is a round trip on the
    frame requests: when the requests scheduled before carry handles
    that were handed out earlier, the request [play] adds is the one
    [pause] cancels, the list of scheduled requests is as before and no
    handle is stored; the container ends up paused unless the page is
    hidden. *)
Theorem play_pause_round_trip (force : option bool) (w : World) :
  Forall (fun h => (h < nextHandle (window w))%nat)
         (frameRequests (window w)) ->
  exists w',
    frameCalls [Play force; Pause] w = (Normal tt, w')
    /\ frameRequests (window w') = frameRequests (window w)
    /\ drawAnimationFrame (this w') = None
    /\ paused (this w') = negb (pageHidden (this w)).
Proof.
  intros Hissued.
  assert (Hplay : frameCall (Play force) w = (Normal tt, snd (play force w))).
  { simpl. rewrite play_run. reflexivity. }
  destruct (pause_spec (snd (play force w)))
    as (w' & Hrun & Hframe & Hreqs & _ & Hpaused & _).
  exists w'. split.
  - rewrite (frameCalls_cons (Play force) [Pause] w Hplay).
    unfold frameCalls. simpl. unfold bind. rewrite Hrun. reflexivity.
  - split; [|split; [exact Hframe|]].
    + rewrite Hreqs. rewrite play_run. simpl.
      apply filter_neq_fresh. exact Hissued.
    + rewrite Hpaused. rewrite play_run. simpl.
      destruct (paused (this w)) eqn:Hp; simpl.
      * reflexivity.
      * destruct (truthy force); simpl; rewrite Hp; reflexivity.
Qed.

End ContainerMore.

(** *** The life cycle *)

Module LifeCycleMore.

Import Core CoreMore ContainerSpec ContainerMore.

Lemma set_particles_same (c : Container) (ps : Particles) :
  particles c = Some ps -> set_particles (Some ps) c = c.
Proof. destruct c. simpl. intros ->. reflexivity. Qed.

(** The start loop of [start] only calls hooks. *)
Lemma forEach_start_hooks (ps : list IPlugin) (w : World) :
  forEach ps (fun plugin =>
    if plugin_startAsync plugin then
      call (PluginCall (plugin_name plugin) HStartAsync)
    else
      when (plugin_start plugin)
           (call (PluginCall (plugin_name plugin) HStart))) w
  = (Normal tt,
     {| this := this w; window := window w;
        calls := calls w ++ startHookCalls ps |}).
Proof.
  revert w. induction ps as [|p ps IH]; intros w; simpl.
  - unfold ret. rewrite app_nil_r, world_eta. reflexivity.
  - unfold bind.
    destruct (plugin_startAsync p); [|destruct (plugin_start p)]; simpl;
      unfold call, ret; rewrite IH; simpl;
      rewrite <- ?app_assoc; reflexivity.
Qed.

Section WithCollaborators.

Context {collaborators : Collaborators}.

(** The drawers after [this.drawers[type] = getShapeDrawer(type)] for
    each of the types in turn. *)
Lemma forEach_resolveDrawer (types : list string) (w : World) :
  forEach types resolveDrawer w
  = (Normal tt,
     set_this
       (set_drawers
          (fold_left
             (fun ds type =>
                drawers_set type (CanvasUtils_getShapeDrawer type) ds)
             types (drawers (this w)))
          (this w)) w).
Proof.
  revert w. induction types as [|t ts IH]; intros w; simpl.
  - unfold ret, set_this. destruct w as [c win evs]. destruct c.
    reflexivity.
  - unfold bind, resolveDrawer at 1, modify. rewrite IH.
    unfold set_this. simpl. reflexivity.
Qed.

(** After [stop], returned or thrown, the container is not started. *)
Lemma stop_started_false (w : World) : started (this (snd (stop w))) = false.
Proof.
  destruct w as [c win evs]. destruct c.
  unfold stop, pause. step.
  repeat (first [ split_field | rewrite forEach_hooks ]; step);
    reflexivity.
Qed.

(** X6.  [stop] is idempotent on every container, also one that is half
    torn down: whether the first [stop] returned or threw, the container
    is then not started, and a second [stop] returns without changing
    anything. *)
Theorem stop_twice (w : World) :
  started (this (snd (stop w))) = false
  /\ stop (snd (stop w)) = (Normal tt, snd (stop w)).
Proof.
  split; [apply stop_started_false|].
  apply stop_not_started. apply stop_started_false.
Qed.

(** [stop] on a started container that has its subordinates, in full. *)
Lemma stop_run (w : World) :
  alive (this w) ->
  started (this w) = true ->
  exists w' ps rt cv,
    stop w = (Normal tt, w')
    /\ particles (this w) = Some ps
    /\ retina (this w) = Some rt
    /\ canvas (this w) = Some cv
    /\ started (this w') = false
    /\ plugins (this w') = []
    /\ drawAnimationFrame (this w') = None
    /\ paused (this w') = (paused (this w) || negb (pageHidden (this w)))
    /\ particles (this w') =
         Some (set_lineLinkedColor None (Particles_clear ps))
    /\ retina (this w') = Some (Retina_reset rt)
    /\ canvas (this w') = Some (Canvas_clear cv)
    /\ options (this w') = options (this w)
    /\ eventListeners (this w') = eventListeners (this w)
    /\ drawers (this w') = drawers (this w)
    /\ destroyed (this w') = destroyed (this w)
    /\ pageHidden (this w') = pageHidden (this w)
    /\ nextHandle (window w') = nextHandle (window w)
    /\ frameRequests (window w') =
         match drawAnimationFrame (this w) with
         | Some h =>
             filter (fun h' => negb (Nat.eqb h' h)) (frameRequests (window w))
         | None => frameRequests (window w)
         end
    /\ calls w' =
         calls w ++ [RemoveListeners]
         ++ (if paused (this w) then []
             else hookCalls plugin_pause HPause (plugins (this w)))
         ++ hookCalls plugin_stop HStop (plugins (this w)).
Proof.
  destruct w as [c win evs]. destruct c. unfold alive. simpl.
  intros (Ho & Hr & Hc & Hp & He) ->.
  destruct options0; [|congruence]. destruct retina0; [|congruence].
  destruct canvas0; [|congruence]. destruct particles0; [|congruence].
  destruct eventListeners0; [|congruence].
  unfold stop, pause. step.
  destruct drawAnimationFrame0, paused0, pageHidden0; step;
    rewrite ?forEach_hooks; simpl; rewrite ?forEach_hooks; simpl;
    do 4 eexists; (split; [reflexivity|]); simpl;
    rewrite <- ?app_assoc; simpl;
    repeat split; reflexivity.
Qed.

(** X7.  [stop] on a started container that still has its subordinates
    returns and unwinds it: not started, no plug-in left, no handle
    stored (the stored request cancelled), particles cleared and their
    cached link colour deleted, retina reset, canvas cleared.  It calls,
    in this order, the listeners' removal, the [pause] hooks if the
    container was playing, and the [stop] hook of every plug-in that has
    one.  The drawers, the options and the [destroyed] flag are left
    alone. *)
Theorem stop_unwinds (w : World) :
  alive (this w) ->
  started (this w) = true ->
  exists w' ps,
    stop w = (Normal tt, w')
    /\ started (this w') = false
    /\ plugins (this w') = []
    /\ drawAnimationFrame (this w') = None
    /\ particles (this w) = Some ps
    /\ particles (this w') =
         Some (set_lineLinkedColor None (Particles_clear ps))
    /\ retina (this w') = option_map Retina_reset (retina (this w))
    /\ canvas (this w') = option_map Canvas_clear (canvas (this w))
    /\ drawers (this w') = drawers (this w)
    /\ options (this w') = options (this w)
    /\ destroyed (this w') = destroyed (this w)
    /\ calls w' =
         calls w ++ [RemoveListeners]
         ++ (if paused (this w) then []
             else hookCalls plugin_pause HPause (plugins (this w)))
         ++ hookCalls plugin_stop HStop (plugins (this w)).
Proof.
  intros Halive Hstarted.
  destruct (stop_run w Halive Hstarted)
    as (w' & ps & rt & cv & Hrun & Hps & Hrt & Hcv & H1 & H2 & H3 & _ & H5
        & H6 & H7 & H8 & _ & H10 & H11 & _ & _ & _ & H15).
  exists w', ps. rewrite Hrt, Hcv. simpl.
  repeat (split; [assumption|]). exact H15.
Qed.

(** [densityAutoParticles] on a container with its subordinates. *)
Lemma densityAutoParticles_returns (w : World)
    (cv : Canvas) (o : Options) (rt : Retina) (ps : Particles) :
  canvas (this w) = Some cv ->
  options (this w) = Some o ->
  retina (this w) = Some rt ->
  particles (this w) = Some ps ->
  exists ps',
    densityAutoParticles w =
      (Normal tt, set_this (set_particles (Some ps') (this w)) w).
Proof.
  intros Hcv Ho Hrt Hps.
  assert (Hsame : set_this (set_particles (Some ps) (this w)) w = w).
  { rewrite (set_particles_same (this w) Hps). unfold set_this.
    apply world_eta. }
  unfold densityAutoParticles, bind, deref. rewrite Hcv.
  destruct (element cv) as [el|]; [|exists ps; rewrite Hsame; reflexivity].
  simpl. rewrite Ho.
  destruct (density_enable _); simpl;
    [|exists ps; rewrite Hsame; reflexivity].
  rewrite Hrt, Hps.
  destruct (Number.lt _ _); [eexists; reflexivity|].
  destruct (Number.lt _ _); [eexists; reflexivity|].
  exists ps. rewrite Hsame. reflexivity.
Qed.


(** [destroy] on a container that has its subordinates, in full. *)
Lemma destroy_run (w : World) :
  alive (this w) ->
  exists w0 w1,
    stop w = (Normal tt, w0)
    /\ destroy w = (Normal tt, w1)
    /\ interactivity (this w1) = None /\ options (this w1) = None
    /\ retina (this w1) = None /\ canvas (this w1) = None
    /\ particles (this w1) = None /\ bubble (this w1) = None
    /\ repulse (this w1) = None /\ drawer (this w1) = None
    /\ eventListeners (this w1) = None
    /\ drawers (this w1) = []
    /\ destroyed (this w1) = true
    /\ started (this w1) = false
    /\ plugins (this w1) = plugins (this w0)
    /\ paused (this w1) = paused (this w0)
    /\ drawAnimationFrame (this w1) = drawAnimationFrame (this w0)
    /\ window w1 = window w0
    /\ calls w1 =
         calls w0
         ++ drawerCalls drawer_destroy DrawerDestroyCall
              (forIn (drawers (this w))).
Proof.
  intros Halive.
  destruct (stop_alive w Halive) as (w0 & Hstop & Hstarted & _ & Halive0).
  assert (Hdrawers : drawers (this w0) = drawers (this w)).
  { destruct (started (this w)) eqn:Hs.
    - destruct (stop_run w Halive Hs)
        as (w' & ? & ? & ? & Hrun & _ & _ & _ & _ & _ & _ & _ & _ & _ & _
            & _ & _ & Hd & _).
      congruence.
    - rewrite (stop_not_started w Hs) in Hstop. congruence. }
  exists w0. unfold destroy. unfold bind at 1. rewrite Hstop.
  rewrite <- Hdrawers.
  destruct w0 as [c win evs]. destruct c. unfold alive in Halive0.
  simpl in *. destruct Halive0 as (Ho & Hr & Hc & Hp & He).
  destruct retina0; [|congruence]. destruct canvas0; [|congruence].
  step.
  rewrite (forEach_calls (fun entry => drawer_destroy (snd entry))
                         (fun entry => DrawerDestroyCall (fst entry))).
  simpl. eexists. split; [reflexivity|]. split; [reflexivity|]. simpl.
  repeat split; try reflexivity. exact Hstarted.
Qed.

(** X9.  [destroy] on a container that still has its subordinates
    releases every one of them (interactivity, options, retina, canvas,
    particles, bubble, repulse, frame manager, event listeners), empties
    the drawer map, and, after what [stop] called, calls the [destroy]
    hook of every drawer that has one, in the order in which
    [for .. in] visits the map.  It schedules and cancels nothing
    beyond what [stop] did. *)
Theorem destroy_releases (w : World) :
  alive (this w) ->
  exists w0 w1,
    stop w = (Normal tt, w0)
    /\ destroy w = (Normal tt, w1)
    /\ interactivity (this w1) = None /\ options (this w1) = None
    /\ retina (this w1) = None /\ canvas (this w1) = None
    /\ particles (this w1) = None /\ bubble (this w1) = None
    /\ repulse (this w1) = None /\ drawer (this w1) = None
    /\ eventListeners (this w1) = None
    /\ drawers (this w1) = []
    /\ window w1 = window w0
    /\ calls w1 =
         calls w0
         ++ drawerCalls drawer_destroy DrawerDestroyCall
              (forIn (drawers (this w))).
Proof.
  intros Halive.
  destruct (destroy_run w Halive)
    as (w0 & w1 & Hstop & Hrun & H1 & H2 & H3 & H4 & H5 & H6 & H7 & H8 & H9
        & H10 & _ & _ & _ & _ & _ & H16 & H17).
  exists w0, w1. repeat (split; [assumption|]). exact H17.
Qed.

(** X10.  Once a container has been destroyed, the methods that look
    into a subordinate fail: [densityAutoParticles] throws a [TypeError]
    on the released canvas and changes nothing, while [stop] simply
    returns. *)
Theorem destroyed_then (w : World) :
  alive (this w) ->
  exists w1,
    destroy w = (Normal tt, w1)
    /\ densityAutoParticles w1 = (Throw (TypeError "canvas"), w1)
    /\ stop w1 = (Normal tt, w1).
Proof.
  intros Halive.
  destruct (destroy_run w Halive)
    as (w0 & w1 & _ & Hrun & _ & _ & _ & Hcanvas & _ & _ & _ & _ & _ & _ & _
        & Hstarted & _).
  exists w1. split; [exact Hrun|]. split.
  - unfold densityAutoParticles, bind, deref. rewrite Hcanvas. reflexivity.
  - apply stop_not_started. exact Hstarted.
Qed.

(** [start] on a stopped container that has its subordinates, when the
    plug-in registry answers, in full. *)
Lemma start_run (w : World) (available : list IPlugin) (o : Options) :
  alive (this w) ->
  started (this w) = false ->
  options (this w) = Some o ->
  Plugins_getAvailablePlugins (this w) = Normal available ->
  exists w',
    start w = (Normal tt, w')
    /\ started (this w') = true
    /\ paused (this w') = false
    /\ destroyed (this w') = destroyed (this w)
    /\ plugins (this w') = plugins (this w) ++ available
    /\ drawers (this w') =
         fold_left
           (fun ds type =>
              drawers_set type (CanvasUtils_getShapeDrawer type) ds)
           (shapeTypes (shape_type (particles_shape (options_particles o))))
           (drawers (this w))
    /\ frameRequests (window w') =
         frameRequests (window w) ++ [nextHandle (window w)]
    /\ drawAnimationFrame (this w') = Some (nextHandle (window w))
    /\ alive (this w')
    /\ calls w' =
         calls w ++ [AddListeners]
         ++ startHookCalls (plugins (this w) ++ available)
         ++ drawerCalls drawer_init DrawerInitCall
              (forIn
                 (fold_left
                    (fun ds type =>
                       drawers_set type (CanvasUtils_getShapeDrawer type) ds)
                    (shapeTypes
                       (shape_type (particles_shape (options_particles o))))
                    (drawers (this w))))
         ++ hookCalls plugin_init HInit (plugins (this w) ++ available)
         ++ (if paused (this w) then
               hookCalls plugin_play HPlay (plugins (this w) ++ available)
             else []).
Proof.
  destruct w as [c win evs]. destruct c. unfold alive. simpl.
  intros (Ho & Hr & Hc & Hp & He) -> -> Hreg.
  destruct retina0 as [rt|]; [|congruence].
  destruct canvas0 as [cv|]; [|congruence].
  destruct particles0 as [ps|]; [|congruence].
  destruct eventListeners0; [|congruence].
  unfold start. step. rewrite Hreg. step.
  rewrite forEach_push_plugins. step.
  rewrite forEach_start_hooks. step.
  assert (Hres : forall w0,
    match shape_type (particles_shape (options_particles o)) with
    | Multiple types => forEach types resolveDrawer
    | Single type => resolveDrawer type
    end w0
    = (Normal tt,
       set_this
         (set_drawers
            (fold_left
               (fun ds type =>
                  drawers_set type (CanvasUtils_getShapeDrawer type) ds)
               (shapeTypes
                  (shape_type (particles_shape (options_particles o))))
               (drawers (this w0)))
            (this w0)) w0)).
  { intros w0.
    destruct (shape_type (particles_shape (options_particles o)));
      [reflexivity | apply forEach_resolveDrawer]. }
  rewrite Hres. step.
  rewrite (forEach_calls (fun entry => drawer_init (snd entry))
                         (fun entry => DrawerInitCall (fst entry))).
  unfold init. step. rewrite forEach_hooks. simpl.
  match goal with
  | |- context [densityAutoParticles ?W] =>
      destruct (densityAutoParticles_returns W (cv := Canvas_init cv)
                  (o := o) (rt := Retina_init rt) (ps := Particles_init ps)
                  eq_refl eq_refl eq_refl eq_refl) as (ps' & Hdensity);
      rewrite Hdensity
  end.
  rewrite play_run. eexists. split; [reflexivity|]. simpl.
  unfold drawerCalls.
  destruct paused0; simpl; rewrite <- ?app_assoc; simpl;
    rewrite ?app_nil_r;
    repeat split; try reflexivity; discriminate.
Qed.


(** X12.  The order of the hooks in [start]: the listeners are added
    first; then every plug-in is started, through [startAsync] where it
    has one and through [start] otherwise; then the [init] hook of
    every drawer in the map, in the order of [for .. in]; then the
    [init] hook of every plug-in; and last, only if the container was
    paused, the [play] hooks. *)
Theorem start_hook_order (w : World) (available : list IPlugin)
    (o : Options) :
  alive (this w) ->
  started (this w) = false ->
  options (this w) = Some o ->
  Plugins_getAvailablePlugins (this w) = Normal available ->
  exists w',
    start w = (Normal tt, w')
    /\ calls w' =
         calls w ++ [AddListeners]
         ++ startHookCalls (plugins (this w'))
         ++ drawerCalls drawer_init DrawerInitCall (forIn (drawers (this w')))
         ++ hookCalls plugin_init HInit (plugins (this w'))
         ++ (if paused (this w) then
               hookCalls plugin_play HPlay (plugins (this w'))
             else []).
Proof.
  intros Halive Hstopped Ho Hreg.
  destruct (start_run w Halive Hstopped Ho Hreg)
    as (w' & Hrun & _ & _ & _ & Hpl & Hdr & _ & _ & _ & Hcalls).
  exists w'. split; [exact Hrun|]. rewrite Hpl, Hdr. exact Hcalls.
Qed.

Lemma startHookCalls_no_start (name : string) (ps : list IPlugin) :
  (forall p, In p ps -> plugin_name p = name -> plugin_startAsync p = true) ->
  ~ In (PluginCall name HStart) (startHookCalls ps).
Proof.
  intros Hasync Hin. unfold startHookCalls in Hin.
  apply in_flat_map in Hin. destruct Hin as (p & Hp & Hcall).
  destruct (plugin_startAsync p) eqn:Ha.
  - destruct Hcall as [Heq | []]. discriminate Heq.
  - destruct (plugin_start p); [|destruct Hcall].
    destruct Hcall as [Heq | []]. injection Heq as Hname.
    rewrite (Hasync p Hp Hname) in Ha. discriminate Ha.
Qed.

Lemma hookCalls_hook (has : IPlugin -> bool) (hook : Hook)
    (ps : list IPlugin) (name : string) (hook' : Hook) :
  In (PluginCall name hook') (hookCalls has hook ps) -> hook' = hook.
Proof.
  unfold hookCalls. intros Hin. apply in_map_iff in Hin.
  destruct Hin as (p & Heq & _). congruence.
Qed.

(** X13.  [startAsync] takes the place of [start]: a plug-in that has a
    [startAsync] hook never has its [start] hook called by the
    container's [start], even when it has both. *)
Theorem start_prefers_startAsync (w : World) (available : list IPlugin)
    (name : string) :
  alive (this w) ->
  started (this w) = false ->
  Plugins_getAvailablePlugins (this w) = Normal available ->
  (forall p, In p (plugins (this w) ++ available) ->
             plugin_name p = name -> plugin_startAsync p = true) ->
  exists w' new,
    start w = (Normal tt, w')
    /\ calls w' = calls w ++ new
    /\ ~ In (PluginCall name HStart) new.
Proof.
  intros Halive Hstopped Hreg Hasync.
  destruct (options (this w)) as [o|] eqn:Ho;
    [|destruct Halive as (Hno & _); congruence].
  destruct (start_run w Halive Hstopped Ho Hreg)
    as (w' & Hrun & _ & _ & _ & _ & _ & _ & _ & _ & Hcalls).
  exists w'. eexists. split; [exact Hrun|]. split; [exact Hcalls|].
  intros Hin. simpl in Hin. destruct Hin as [Heq | Hin]; [discriminate Heq|].
  apply in_app_or in Hin. destruct Hin as [Hin | Hin].
  { exact (@startHookCalls_no_start name _ Hasync Hin). }
  apply in_app_or in Hin. destruct Hin as [Hin | Hin].
  { unfold drawerCalls in Hin. apply in_map_iff in Hin.
    destruct Hin as (e & Heq & _). discriminate Heq. }
  apply in_app_or in Hin. destruct Hin as [Hin | Hin].
  { apply hookCalls_hook in Hin. discriminate Hin. }
  destruct (paused (this w)); [|destruct Hin].
  apply hookCalls_hook in Hin. discriminate Hin.
Qed.

Lemma drawers_get_set_same (t : string) (d : IShapeDrawer)
    (ds : list (string * IShapeDrawer)) :
  drawers_get t (drawers_set t d ds) = Some d.
Proof.
  induction ds as [|[k d0] ds IH]; simpl.
  - rewrite String.eqb_refl. reflexivity.
  - destruct (String.eqb k t) eqn:Hk; simpl; rewrite Hk;
      [reflexivity | exact IH].
Qed.

Lemma drawers_get_set_other (t t' : string) (d : IShapeDrawer)
    (ds : list (string * IShapeDrawer)) :
  t' <> t -> drawers_get t' (drawers_set t d ds) = drawers_get t' ds.
Proof.
  intros Hne. induction ds as [|[k d0] ds IH]; simpl.
  - destruct (String.eqb t t') eqn:Ht; [|reflexivity].
    apply String.eqb_eq in Ht. congruence.
  - destruct (String.eqb k t) eqn:Hk; simpl.
    + apply String.eqb_eq in Hk. subst k.
      destruct (String.eqb t t') eqn:Ht; [|reflexivity].
      apply String.eqb_eq in Ht. congruence.
    + rewrite IH. reflexivity.
Qed.

Lemma drawers_get_resolved (types : list string) (t : string) :
  forall ds,
    drawers_get t
      (fold_left
         (fun ds type => drawers_set type (CanvasUtils_getShapeDrawer type) ds)
         types ds)
    = if in_dec string_dec t types then Some (CanvasUtils_getShapeDrawer t)
      else drawers_get t ds.
Proof.
  induction types as [|a types IH]; intros ds; simpl; [reflexivity|].
  rewrite IH. destruct (in_dec string_dec t types) as [Hin | Hout].
  - destruct (string_dec a t); reflexivity.
  - destruct (string_dec a t) as [-> | Hne].
    + apply drawers_get_set_same.
    + apply drawers_get_set_other. congruence.
Qed.

(** X14.  After [start] the drawer map holds, for every configured
    shape type (the single one, or each one of the array), the drawer
    that [CanvasUtils.getShapeDrawer] gives for it; the entry of any
    other type is what it was before: [start] adds and replaces drawers
    but removes none. *)
Theorem start_resolves_drawers (w : World) (available : list IPlugin)
    (o : Options) (t : string) :
  alive (this w) ->
  started (this w) = false ->
  options (this w) = Some o ->
  Plugins_getAvailablePlugins (this w) = Normal available ->
  exists w',
    start w = (Normal tt, w')
    /\ (In t (shapeTypes (shape_type (particles_shape (options_particles o))))
        -> drawers_get t (drawers (this w'))
           = Some (CanvasUtils_getShapeDrawer t))
    /\ (~ In t (shapeTypes
                  (shape_type (particles_shape (options_particles o))))
        -> drawers_get t (drawers (this w'))
           = drawers_get t (drawers (this w))).
Proof.
  intros Halive Hstopped Ho Hreg.
  destruct (start_run w Halive Hstopped Ho Hreg)
    as (w' & Hrun & _ & _ & _ & _ & Hdr & _).
  exists w'. split; [exact Hrun|]. rewrite Hdr, drawers_get_resolved.
  destruct (in_dec string_dec t _) as [Hin | Hout]; split; intros H;
    try reflexivity; contradiction.
Qed.




End WithCollaborators.

End LifeCycleMore.

(** *** The drawers and the density at the edges *)

Module EdgesMore.

Import Core CoreMore ContainerSpec ContainerMore LifeCycleMore.

Lemma insertIndexed_Permutation (A : Type) (i : N) (e : string * A)
    (l : list (N * (string * A))) :
  Permutation (insertIndexed i e l) ((i, e) :: l).
Proof.
  induction l as [|[j e'] l IH]; simpl; [apply Permutation_refl|].
  destruct (i <? j)%N; [apply Permutation_refl|].
  eapply Permutation_trans; [apply perm_skip, IH|apply perm_swap].
Qed.

(** [for .. in] visits every entry of the map, each once. *)
Lemma forIn_Permutation (A : Type) (ds : list (string * A)) :
  Permutation (forIn ds) ds.
Proof.
  unfold forIn. induction ds as [|e ds IH]; simpl; [constructor|].
  destruct (arrayIndex (fst e)) as [i|].
  - eapply Permutation_trans; [|apply perm_skip, IH].
    change (e :: map snd (indexed ds) ++ filter _ ds)
      with ((e :: map snd (indexed ds)) ++ filter
              (fun e0 : string * A =>
                 match arrayIndex (fst e0) with
                 | Some _ => false
                 | None => true
                 end) ds).
    apply Permutation_app_tail.
    change (e :: map snd (indexed ds))
      with (map snd ((i, e) :: indexed ds)).
    apply Permutation_map, insertIndexed_Permutation.
  - eapply Permutation_trans; [|apply perm_skip, IH].
    apply Permutation_sym, Permutation_middle.
Qed.

Lemma drawerCalls_Permutation (has : IShapeDrawer -> bool)
    (event : string -> Event) (ds ds' : list (string * IShapeDrawer)) :
  Permutation ds ds' ->
  Permutation (drawerCalls has event ds) (drawerCalls has event ds').
Proof.
  intros Hp. unfold drawerCalls. apply Permutation_map.
  induction Hp as [|x l l' Hp IH|x y l|l l' l'' H1 IH1 H2 IH2]; simpl.
  - constructor.
  - destruct (has (snd x)); [apply perm_skip|]; exact IH.
  - destruct (has (snd x)), (has (snd y));
      try apply Permutation_refl. apply perm_swap.
  - eapply Permutation_trans; eassumption.
Qed.

Section WithCollaborators.

Context {collaborators : Collaborators}.

(** X21.  [destroy] on a container that still has its subordinates
    calls the [destroy] hook of every drawer of the map that has one
    exactly once, and of no other: whatever the order in which
    [for .. in] visits the keys, the calls it adds to those of [stop]
    are, up to their order, the hooks of the map's entries. *)
Theorem destroy_drawer_hooks_once (w : World) :
  alive (this w) ->
  exists w0 w1 new,
    stop w = (Normal tt, w0)
    /\ destroy w = (Normal tt, w1)
    /\ calls w1 = calls w0 ++ new
    /\ Permutation new
         (drawerCalls drawer_destroy DrawerDestroyCall (drawers (this w))).
Proof.
  intros Halive.
  destruct (destroy_run w Halive)
    as (w0 & w1 & Hstop & Hrun & _ & _ & _ & _ & _ & _ & _ & _ & _ & _ & _
        & _ & _ & _ & _ & _ & Hcalls).
  exists w0, w1. eexists. split; [exact Hstop|]. split; [exact Hrun|].
  split; [exact Hcalls|].
  apply drawerCalls_Permutation, forIn_Permutation.
Qed.

(** X22.  A density area of zero is not guarded against.  When the
    target comes out as [Infinity], as it does for a density area of 0
    under a positive area and number, [densityAutoParticles] asks the
    collection for infinitely many particles: it calls
    [push(Infinity)], whatever the count.  When the target comes out as
    [NaN], as for [0 / 0] on an empty canvas, neither comparison holds
    and the call changes nothing. *)
Theorem densityAutoParticles_zero_density
    (w : World) (cv : Canvas) (el : CanvasElement) (o : Options)
    (rt : Retina) (ps : Particles) :
  canvas (this w) = Some cv ->
  element cv = Some el ->
  options (this w) = Some o ->
  density_enable (number_density (particles_number (options_particles o)))
    = true ->
  retina (this w) = Some rt ->
  particles (this w) = Some ps ->
  Number.safe (count ps) ->
  let target :=
    densityTarget (width el) (height el) (isRetina rt) (pixelRatio rt)
      (number_value (particles_number (options_particles o)))
      (density_area (number_density (particles_number (options_particles o))))
  in
  (target = S754_infinity false ->
   exists w',
     densityAutoParticles w = (Normal tt, w')
     /\ particles (this w') = Some (Particles_push (S754_infinity false) ps))
  /\ (target = S754_nan -> densityAutoParticles w = (Normal tt, w)).
Proof.
  intros Hcv Hel Ho Hon Hrt Hps Hsafe target.
  rewrite (densityAutoParticles_enabled w Hcv Hel Ho Hon Hrt Hps).
  rewrite particlesNumber_densityTarget. fold target. cbv zeta.
  split; intros ->.
  - assert (Hn : Number.lt (Number.ofNat (count ps)) (S754_infinity false)
                 = true
                 /\ Number.abs (Number.sub (S754_infinity false)
                                  (Number.ofNat (count ps)))
                    = S754_infinity false).
    { destruct (count ps) as [|k]; [split; reflexivity|].
      rewrite (@NumberSpec.ofNat_S k Hsafe). split; reflexivity. }
    destruct Hn as (Hlt & Habs). rewrite Hlt, Habs.
    eexists. split; reflexivity.
  - replace (Number.lt (Number.ofNat (count ps)) S754_nan) with false.
    + reflexivity.
    + unfold Number.lt, SFltb, SFcompare.
      destruct (Number.ofNat (count ps)); reflexivity.
Qed.

End WithCollaborators.

End EdgesMore.

(* ================================================================= *)
(** ** Further properties of [PolygonMask.load] *)

Module PolygonMaskMoreSpec.

Import PolygonMask PolygonMaskMore.

Section Load.

Variable MaskType : Type.
Variable MaskType_eq_dec : forall a b : MaskType, {a = b} + {a <> b}.
Variable Type_none : MaskType.
Variable Arrangement : Type.
Variables Draw IDraw Move IMove LocalSvg ILocalSvg : Type.
Variables ICoordinates ICoordinatesPartial : Type.
Variable Draw_load : Draw -> option IDraw -> Draw.
Variable Move_load : Move -> option IMove -> Move.
Variable LocalSvg_new : LocalSvg.
Variable LocalSvg_load : LocalSvg -> option ILocalSvg -> LocalSvg.
Variable deepExtend_empty : ICoordinatesPartial -> ICoordinates.

Local Abbreviation Mask :=
  (PolygonMask MaskType Arrangement Draw Move LocalSvg ICoordinates).
Local Abbreviation Data :=
  (IPolygonMask MaskType Arrangement IDraw IMove ILocalSvg
                ICoordinatesPartial).
Local Abbreviation load :=
  (load MaskType_eq_dec Type_none Draw_load Move_load LocalSvg_new
        LocalSvg_load deepExtend_empty).
Local Abbreviation is_not_none := (is_not_none MaskType_eq_dec Type_none).

(** X17.  The deprecated alias and the nested field are the same input:
    loading [{ inlineArrangement: X }] with no [inline] gives the very
    mask that loading [{ inline: { arrangement: X } }] gives.  And once
    [inline] is present the alias is not looked at: two inputs that
    differ only in [inlineArrangement] load to the same mask, also when
    [inline] itself leaves the arrangement undefined. *)
Theorem load_alias_is_nested (this : Mask) (data : Data) (X : Arrangement) :
  (forall a,
     load this (Some (with_inline None (Some X) data))
     = load this
         (Some (with_inline (Some {| i_arrangement := Some X |}) a data)))
  /\ (forall i a b,
        load this (Some (with_inline (Some i) a data))
        = load this (Some (with_inline (Some i) b data))).
Proof.
  split.
  - intros a. unfold PolygonMask.load, with_inline. simpl. reflexivity.
  - intros i a b. unfold PolygonMask.load, with_inline. simpl. reflexivity.
Qed.

Ltac by_cases data :=
  unfold PolygonMask.load;
  destruct (d_position data), (d_data data) as [[?|?]|], (d_url data),
           (d_enable data), (d_type data), (d_scale data);
  reflexivity.

Lemma load_draw (this : Mask) (data : Data) :
  draw (load this (Some data)) = Draw_load (draw this) (d_draw data).
Proof. by_cases data. Qed.

Lemma load_move (this : Mask) (data : Data) :
  move (load this (Some data)) = Move_load (move this) (d_move data).
Proof. by_cases data. Qed.

Lemma load_position (this : Mask) (data : Data) :
  position (load this (Some data)) =
    match d_position data with
    | Some p => Some (deepExtend_empty p)
    | None => position this
    end.
Proof. by_cases data. Qed.

Lemma load_data (this : Mask) (data : Data) :
  PolygonMask.data (load this (Some data)) =
    match d_data data with
    | Some (inl s) => Some (inl s)
    | Some (inr o) => Some (inr (LocalSvg_load LocalSvg_new (Some o)))
    | None => PolygonMask.data this
    end.
Proof. by_cases data. Qed.

Lemma mask_eq (p q : Mask) :
  draw p = draw q -> enable p = enable q -> inline p = inline q ->
  move p = move q -> position p = position q -> scale p = scale q ->
  type p = type q -> url p = url q ->
  PolygonMask.data p = PolygonMask.data q ->
  p = q.
Proof.
  destruct p, q. simpl. intros. subst. reflexivity.
Qed.

Lemma Inline_load_twice (i : Inline Arrangement)
    (d : option (IInline Arrangement)) :
  Inline_load (Inline_load i d) d = Inline_load i d.
Proof.
  destruct d as [[[a|]]|]; reflexivity.
Qed.

(** X18.  [load] is idempotent when the loaders of the [draw] and
    [move] sub-options are: loading the same input a second time
    changes nothing.  In particular the type, [enable] computed from it,
    the fresh [LocalSvg] and the copied position come out the same. *)
Theorem load_twice (this : Mask) (data : option Data) :
  (forall d i, Draw_load (Draw_load d i) i = Draw_load d i) ->
  (forall m i, Move_load (Move_load m i) i = Move_load m i) ->
  load (load this data) data = load this data.
Proof.
  intros Hdraw Hmove. destruct data as [data|]; [|reflexivity].
  assert (Htype : type (load (load this (Some data)) (Some data))
                  = type (load this (Some data))).
  { rewrite !PolygonMaskSpec.load_type. destruct (d_type data); reflexivity. }
  apply mask_eq.
  - rewrite !load_draw. apply Hdraw.
  - rewrite !PolygonMaskSpec.load_enable, Htype. reflexivity.
  - rewrite !PolygonMaskSpec.load_inline. apply Inline_load_twice.
  - rewrite !load_move. apply Hmove.
  - rewrite !load_position. destruct (d_position data); reflexivity.
  - rewrite !PolygonMaskSpec.load_scale. destruct (d_scale data); reflexivity.
  - exact Htype.
  - rewrite !PolygonMaskSpec.load_url. destruct (d_url data); reflexivity.
  - rewrite !load_data. destruct (d_data data) as [[?|?]|]; reflexivity.
Qed.

(** X19.  Two loads in a row merge to the right, field by field: for
    [scale], [type] and [url] the second input wins where it defines the
    field, else the first, else the prior value.  [enable] is different:
    it is decided by the last load alone, from its own [enable] or else
    from the resulting type, so a value set explicitly by an earlier
    load does not survive a later load that leaves [enable] out. *)
Theorem load_load (this : Mask) (d1 d2 : Data) :
  scale (load (load this (Some d1)) (Some d2)) =
    match d_scale d2, d_scale d1 with
    | Some v, _ => v
    | None, Some v => v
    | None, None => scale this
    end
  /\ type (load (load this (Some d1)) (Some d2)) =
    match d_type d2, d_type d1 with
    | Some v, _ => v
    | None, Some v => v
    | None, None => type this
    end
  /\ url (load (load this (Some d1)) (Some d2)) =
    match d_url d2, d_url d1 with
    | Some v, _ => Some v
    | None, Some v => Some v
    | None, None => url this
    end
  /\ enable (load (load this (Some d1)) (Some d2)) =
    match d_enable d2 with
    | Some v => v
    | None =>
        is_not_none
          match d_type d2, d_type d1 with
          | Some v, _ => v
          | None, Some v => v
          | None, None => type this
          end
    end.
Proof.
  assert (Htype :
    type (load (load this (Some d1)) (Some d2)) =
    match d_type d2, d_type d1 with
    | Some v, _ => v
    | None, Some v => v
    | None, None => type this
    end).
  { rewrite !PolygonMaskSpec.load_type.
    destruct (d_type d2), (d_type d1); reflexivity. }
  split; [|split; [exact Htype|split]].
  - rewrite !PolygonMaskSpec.load_scale.
    destruct (d_scale d2), (d_scale d1); reflexivity.
  - rewrite !PolygonMaskSpec.load_url.
    destruct (d_url d2), (d_url d1); reflexivity.
  - rewrite PolygonMaskSpec.load_enable, Htype. reflexivity.
Qed.

(** X20.  [position] and [data] are replaced, never merged.  A defined
    [data.position] becomes a copy made from an empty object, a string
    [data.data] is stored as it is and an object [data.data] is loaded
    into a fresh [LocalSvg]; in each case nothing of the prior value is
    left.  An undefined one leaves the prior value. *)
Theorem load_position_data (this : Mask) (data : Data) :
  position (load this (Some data)) =
    match d_position data with
    | Some p => Some (deepExtend_empty p)
    | None => position this
    end
  /\ PolygonMask.data (load this (Some data)) =
    match d_data data with
    | Some (inl s) => Some (inl s)
    | Some (inr o) => Some (inr (LocalSvg_load LocalSvg_new (Some o)))
    | None => PolygonMask.data this
    end.
Proof.
  split; [apply load_position | apply load_data].
Qed.

End Load.

End PolygonMaskMoreSpec.

(* ================================================================= *)
(** ** The further properties at sample objects *)

Module MoreSamples.

Import Core CoreMore Samples ContainerMore LifeCycleMore EdgesMore.

Lemma alive_running : alive (this running).
Proof. vm_compute. repeat split; discriminate. Qed.

Lemma alive_sample (n d : Z) (k : nat) : alive (this (fresh n d k)).
Proof. unfold alive. simpl. repeat split; discriminate. Qed.

Lemma issuedHandles_fresh (n d : Z) (k : nat) :
  issuedHandles (fresh n d k).
Proof.
  unfold issuedHandles. simpl. split; [constructor|].
  split; [constructor|]. intros h Hh. discriminate Hh.
Qed.

(** X2 at a sample: play, play, pause on a fresh container. *)
Lemma frameCalls_issuedHandles_witness :
  exists w',
    frameCalls [Play None; Play None; Pause] (fresh 1 800 0) = (Normal tt, w')
    /\ issuedHandles w'
    /\ nextHandle (window w') = 3%nat.
Proof.
  exact (frameCalls_issuedHandles [Play None; Play None; Pause]
           (issuedHandles_fresh 1 800 0)).
Defined.

(** X3 at a sample: the running container is paused twice. *)
Lemma pause_twice_witness :
  exists w1,
    pause running = (Normal tt, w1)
    /\ paused (this w1) = true
    /\ pause w1 = (Normal tt, w1).
Proof. apply pause_twice. reflexivity. Defined.

(** X4 at a sample: the running container with the page hidden. *)
Lemma pause_hidden_witness :
  exists w1 w2,
    pause hidden = (Normal tt, w1)
    /\ getAnimationStatus (this w1) = true
    /\ pause w1 = (Normal tt, w2)
    /\ calls w2 = calls hidden ++ [PluginCall "mask" HPause]
                               ++ [PluginCall "mask" HPause].
Proof.
  destruct (pause_hidden hidden eq_refl eq_refl)
    as (w1 & w2 & Hrun & Hstatus & _ & Hcalls & Hrun2 & _ & Hcalls2 & _).
  exists w1, w2. split; [exact Hrun|]. split; [exact Hstatus|].
  split; [exact Hrun2|]. rewrite Hcalls2, Hcalls, <- app_assoc. reflexivity.
Defined.

(** X5 at a sample: play and pause on a fresh container. *)
Lemma play_pause_round_trip_witness :
  exists w',
    frameCalls [Play None; Pause] (fresh 1 800 0) = (Normal tt, w')
    /\ frameRequests (window w') = []
    /\ paused (this w') = true.
Proof.
  destruct (play_pause_round_trip None (fresh 1 800 0) (Forall_nil _))
    as (w' & Hrun & Hreqs & _ & Hpaused).
  exists w'. split; [exact Hrun|]. split; [exact Hreqs | exact Hpaused].
Defined.

(** X7 at a sample: the running container is stopped. *)
Lemma stop_unwinds_witness :
  exists w',
    stop (collaborators := plugged) running = (Normal tt, w')
    /\ started (this w') = false
    /\ plugins (this w') = []
    /\ calls w' =
         calls running
         ++ [RemoveListeners; PluginCall "mask" HPause;
             PluginCall "mask" HStop].
Proof.
  destruct (stop_unwinds (collaborators := plugged) running alive_running
              eq_refl)
    as (w' & ps & Hrun & Hs & Hpl & _ & _ & _ & _ & _ & _ & _ & _ & Hcalls).
  exists w'. split; [exact Hrun|]. split; [exact Hs|]. split; [exact Hpl|].
  rewrite Hcalls. reflexivity.
Defined.


(** X9 at a sample: the running container is destroyed. *)
Lemma destroy_releases_witness :
  exists w1,
    destroy (collaborators := plugged) running = (Normal tt, w1)
    /\ canvas (this w1) = None
    /\ drawers (this w1) = []
    /\ calls w1 =
         calls running
         ++ [RemoveListeners; PluginCall "mask" HPause;
             PluginCall "mask" HStop; DrawerDestroyCall "circle"].
Proof.
  destruct (destroy_releases (collaborators := plugged) running
              alive_running)
    as (w0 & w1 & Hstop & Hrun & _ & _ & _ & Hcv & _ & _ & _ & _ & _ & Hdr
        & _ & Hcalls).
  exists w1. split; [exact Hrun|]. split; [exact Hcv|]. split; [exact Hdr|].
  rewrite Hcalls.
  assert (Hw0 : w0 = after (stop (collaborators := plugged)) running).
  { unfold after. rewrite Hstop. reflexivity. }
  rewrite Hw0. reflexivity.
Defined.

(** X10 at a sample: a fresh container is destroyed. *)
Lemma destroyed_then_witness :
  exists w1,
    destroy (collaborators := plugged) (fresh 1 800 0) = (Normal tt, w1)
    /\ densityAutoParticles (collaborators := plugged) w1
       = (Throw (TypeError "canvas"), w1).
Proof.
  destruct (destroyed_then (collaborators := plugged) (fresh 1 800 0)
              (alive_sample 1 800 0))
    as (w1 & Hrun & Hdensity & _).
  exists w1. split; assumption.
Defined.


(** X12 at a sample: the calls of that start, in order. *)
Lemma start_hook_order_witness :
  exists w',
    start (collaborators := plugged) (fresh 1 800 0) = (Normal tt, w')
    /\ calls w' =
         [AddListeners; PluginCall "mask" HStart;
          PluginCall "emitters" HStartAsync; PluginCall "mask" HInit;
          PluginCall "mask" HPlay].
Proof.
  destruct (start_hook_order (collaborators := plugged) (fresh 1 800 0)
              (alive_sample 1 800 0) eq_refl eq_refl eq_refl)
    as (w' & Hrun & Hcalls).
  exists w'. split; [exact Hrun|]. rewrite Hcalls.
  assert (Hw : w' = after (start (collaborators := plugged)) (fresh 1 800 0)).
  { unfold after. rewrite Hrun. reflexivity. }
  rewrite Hw. reflexivity.
Defined.

(** X13 at a sample: the plug-in with both hooks is started through
    [startAsync] only. *)
Lemma start_prefers_startAsync_witness :
  exists w' new,
    start (collaborators := plugged) (fresh 1 800 0) = (Normal tt, w')
    /\ calls w' = calls (fresh 1 800 0) ++ new
    /\ ~ In (PluginCall "emitters" HStart) new.
Proof.
  apply (start_prefers_startAsync (collaborators := plugged)
           (fresh 1 800 0) (available := [plugin; asyncPlugin])
           (alive_sample 1 800 0) eq_refl eq_refl).
  intros p [<- | [<- | []]] Hname; [discriminate Hname | reflexivity].
Defined.

(** X14 at a sample: the drawer of the configured shape. *)
Lemma start_resolves_drawers_witness :
  exists w',
    start (collaborators := plugged) (fresh 1 800 0) = (Normal tt, w')
    /\ drawers_get "circle" (drawers (this w'))
       = Some {| drawer_init := false; drawer_destroy := true |}.
Proof.
  destruct (start_resolves_drawers (collaborators := plugged)
              (fresh 1 800 0) "circle" (alive_sample 1 800 0) eq_refl
              eq_refl eq_refl)
    as (w' & Hrun & Hin & _).
  exists w'. split; [exact Hrun|]. apply Hin. left. reflexivity.
Defined.



(** X21 at a sample: the container with three drawers is destroyed;
    the keys were created as ["star"], ["10"], ["2"] and are visited as
    ["2"], ["10"], ["star"]. *)
Lemma destroy_drawer_hooks_once_witness :
  map fst (drawers (this numbered)) = ["star"; "10"; "2"]%string
  /\ exists w0 w1,
       stop (collaborators := plugged) numbered = (Normal tt, w0)
       /\ destroy (collaborators := plugged) numbered = (Normal tt, w1)
       /\ calls w1 =
            calls w0
            ++ [DrawerDestroyCall "2"; DrawerDestroyCall "10";
                DrawerDestroyCall "star"]
       /\ Permutation
            [DrawerDestroyCall "2"; DrawerDestroyCall "10";
             DrawerDestroyCall "star"]
            [DrawerDestroyCall "star"; DrawerDestroyCall "10";
             DrawerDestroyCall "2"].
Proof.
  split; [vm_compute; reflexivity|].
  assert (Halive : alive (this numbered))
    by (vm_compute; repeat split; discriminate).
  destruct (destroy_drawer_hooks_once (collaborators := plugged) numbered
              Halive)
    as (w0 & w1 & new & Hstop & Hrun & Hcalls & Hperm).
  assert (Hw1 : w1 = after (destroy (collaborators := plugged)) numbered).
  { unfold after. rewrite Hrun. reflexivity. }
  assert (Hw0 : w0 = after (stop (collaborators := plugged)) numbered).
  { unfold after. rewrite Hstop. reflexivity. }
  assert (Hnew : new = [DrawerDestroyCall "2"; DrawerDestroyCall "10";
                        DrawerDestroyCall "star"]).
  { apply (app_inv_head (calls w0)). rewrite <- Hcalls, Hw1, Hw0.
    vm_compute. reflexivity. }
  exists w0, w1. split; [exact Hstop|]. split; [exact Hrun|].
  split; [rewrite Hcalls, Hnew; reflexivity|].
  rewrite <- Hnew. vm_compute in Hperm. exact Hperm.
Defined.

(** X22 at a sample: a density area of 0 on the canvas of area 1000. *)
Lemma densityAutoParticles_zero_density_witness :
  exists w',
    densityAutoParticles (collaborators := plugged) (fresh 1 0 0)
    = (Normal tt, w')
    /\ particles (this w')
       = Some (@Particles_push plugged (S754_infinity false)
                 {| count := 0; lineLinkedColor := None |}).
Proof.
  assert (Hsafe : Number.safe 0) by (vm_compute; reflexivity).
  destruct (@densityAutoParticles_zero_density plugged (fresh 1 0 0)
              canvas1000
              {| width := Number.ofZ 1000; height := Number.ofZ 1000 |}
              (options (Number.ofZ 1) (Number.ofZ 0)) plainRetina
              {| count := 0; lineLinkedColor := None |}
              eq_refl eq_refl eq_refl eq_refl eq_refl eq_refl Hsafe)
    as (Hinf & _).
  apply Hinf. vm_compute. reflexivity.
Defined.

(** X18 at a sample: [{ enable: true }] loaded twice. *)
Lemma load_twice_witness :
  MaskSamples.load
    (MaskSamples.load MaskSamples.fresh (Some MaskSamples.enabled))
    (Some MaskSamples.enabled)
  = MaskSamples.load MaskSamples.fresh (Some MaskSamples.enabled).
Proof.
  apply (PolygonMaskMoreSpec.load_twice string_dec "none"%string
           (fun d _ => d) (fun m _ => m) tt (fun s _ => s)
           (fun p : unit => p) MaskSamples.fresh
           (Some MaskSamples.enabled));
    intros; reflexivity.
Defined.

End MoreSamples.
